(** * marker_parser: the Streamlit OCR page of [app.py]

    A shallow embedding of [app.py]: the cached engine loader
    [load_model], the conversion helper [process_pdf] and the page script
    [main], which Streamlit re-runs from top to bottom after every user
    interaction.

    What the script shares between runs is made explicit in a [World]:
    the wall clock read by [time.time()], the files of the temporary
    directory, the cell behind [@st.cache_resource], [st.session_state],
    and the elements put on the page by the current run.  What the script
    cannot decide itself is supplied per run by an [Env]: the widget values
    (uploaded file, button), whether engine construction, temporary-file
    creation, the engine call or [os.remove] raise, and how long they take. *)

From Stdlib Require Import ZArith Lia.
From stdpp Require Import gmap strings list fin_maps.

Open Scope Z_scope.

(** ** Python values *)

(** A Python [str]: the sequence of its Unicode code points. *)
Abbreviation pystr := (list N).

(** A Python [bytes] object. *)
Abbreviation pybytes := (list N).

(** The values the script stores in [st.session_state]: [None], a [str],
    or a [float].  Wall-clock readings are kept as integers (ticks of the
    clock); the rounding of [float] subtraction is not modelled. *)
Inductive pyval : Type :=
| PNone
| PStr (s : pystr)
| PFloat (t : Z).

(** An exception object; [str(e)] is all the script ever reads of it.  The
    exceptions of the model are the errors of the engine, of the file
    system and of the interpreter ([TypeError]); all are instances of
    [Exception]. *)
Record exn : Type := Exn { exn_str : pystr }.

(** The converter object returned by [PdfConverter(...)]; its identity is
    the number of the construction that produced it. *)
Definition Handle : Type := nat.

(** ** Page elements *)

(** The elements a run puts on the page.  Fixed captions are kept as
    ASCII tags; what depends on data is kept in full. *)
Inductive element : Type :=
| Static (tag : string)                       (* st.title / st.markdown of a literal *)
| SuccessReady                                (* st.success: system ready *)
| InfoName (name : pystr)                     (* st.info: file name *)
| InfoSize (nbytes : nat)                     (* st.info: size, from len(pdf_bytes) *)
| Error (msg : pystr)                         (* st.error(f"...: {str(e)}") *)
| SuccessDone (elapsed : Z)                   (* st.success(f"... {elapsed_time:.2f} ...") *)
| PdfIframe (pdf_bytes : pybytes)             (* iframe over base64 of pdf_bytes *)
| Markdown (body : pyval)                     (* st.markdown(text) *)
| Code (body : pyval)                         (* st.code(text, language="markdown") *)
| DownloadButton (data : pyval) (file_name : pystr) (mime : string)
| MetricTime (elapsed : Z)                    (* f"{elapsed_time:.2f}s" *)
| MetricChars (n : nat)                       (* f"{len(text):,}" *)
| MetricWords (n : nat).                      (* f"{word_count:,}" *)

(** ** The world shared by the runs of the script *)

Record World : Type := mkWorld {
  clock : Z;                                  (* what time.time() returns now *)
  fs : gmap string pybytes;                   (* files by path *)
  resource_cache : option Handle;             (* the cell of @st.cache_resource *)
  constructions : nat;                        (* runs of the body of load_model *)
  session_state : gmap string pyval;          (* st.session_state *)
  page : list element                         (* elements of the current run *)
}.

Definition set_clock (t : Z) (w : World) : World :=
  mkWorld t (fs w) (resource_cache w) (constructions w) (session_state w) (page w).
Definition set_fs (f : gmap string pybytes) (w : World) : World :=
  mkWorld (clock w) f (resource_cache w) (constructions w) (session_state w) (page w).
Definition set_resource_cache (c : option Handle) (w : World) : World :=
  mkWorld (clock w) (fs w) c (constructions w) (session_state w) (page w).
Definition set_constructions (n : nat) (w : World) : World :=
  mkWorld (clock w) (fs w) (resource_cache w) n (session_state w) (page w).
Definition set_session_state (s : gmap string pyval) (w : World) : World :=
  mkWorld (clock w) (fs w) (resource_cache w) (constructions w) s (page w).
Definition set_page (p : list element) (w : World) : World :=
  mkWorld (clock w) (fs w) (resource_cache w) (constructions w) (session_state w) p.

(** ** Computations that may raise *)

Inductive result (A : Type) : Type :=
| Ok (a : A)
| Raise (e : exn).
Arguments Ok {A} a.
Arguments Raise {A} e.

Definition M (A : Type) : Type := World -> result A * World.

Definition ret {A} (a : A) : M A := fun w => (Ok a, w).

Definition bind {A B} (m : M A) (k : A -> M B) : M B :=
  fun w => match m w with
           | (Ok a, w') => k a w'
           | (Raise e, w') => (Raise e, w')
           end.

Definition raise {A} (e : exn) : M A := fun w => (Raise e, w).

Declare Scope py_scope.
Delimit Scope py_scope with py.
Notation "x <- m ;; k" := (bind m (fun x => k))
  (at level 100, m at next level, right associativity) : py_scope.
Notation "m ;; k" := (bind m (fun _ => k))
  (at level 100, k at level 200, right associativity) : py_scope.
Open Scope py_scope.

(** [try: body / except Exception as e: handler(e) / finally: fin].  The
    handler runs when the body raises; [fin] runs on every way out, and
    an exception of [fin] replaces the outcome reached so far. *)
Definition try_except_finally {A} (body : M A) (handler : exn -> M A)
    (fin : M unit) : M A :=
  fun w =>
    let '(r, w1) := match body w with
                    | (Ok a, w') => (Ok a, w')
                    | (Raise e, w') => handler e w'
                    end in
    match fin w1 with
    | (Ok _, w2) => (r, w2)
    | (Raise e, w2) => (Raise e, w2)
    end.

Definition gets {A} (f : World -> A) : M A := fun w => (Ok (f w), w).
Definition modify (f : World -> World) : M unit := fun w => (Ok tt, f w).

(** ** What a run receives from outside *)

(** The object returned by [st.file_uploader]. *)
Record UploadedFile : Type := mkUploadedFile {
  name : pystr;
  getvalue : pybytes
}.

Record Env : Type := mkEnv {
  uploaded_file : option UploadedFile;        (* value of st.file_uploader *)
  button : bool;                              (* value of st.button *)
  construct_error : option exn;               (* create_model_dict / PdfConverter raise *)
  temp_name : string;                         (* the name tempfile picks *)
  create_error : option exn;                  (* NamedTemporaryFile raises *)
  write_error : option exn;                   (* tmp_file.write raises *)
  converter_call : Handle -> pybytes -> result pystr;
                                              (* converter(path), then text_from_rendered *)
  remove_error : option exn;                  (* os.remove raises *)
  d_tmp : Z;                                  (* time to create and write the file *)
  d_engine : Z;                               (* time spent in process_pdf *)
  d_remove : Z                                (* time spent in os.remove *)
}.

(** ** Primitives *)

Definition time_time : M Z := gets clock.

Definition tick (d : Z) : M unit := modify (fun w => set_clock (clock w + d) w).

Definition emit (e : element) : M unit :=
  modify (fun w => set_page (page w ++ [e]) w).

Definition TypeError : exn := Exn [84; 121; 112; 101; 69; 114; 114; 111; 114]%N.
Definition AttributeError : exn :=
  Exn [65; 116; 116; 114; 105; 98; 117; 116; 101; 69; 114; 114; 111; 114]%N.
Definition FileNotFoundError : exn :=
  Exn [70; 105; 108; 101; 78; 111; 116; 70; 111; 117; 110; 100; 69; 114; 114; 111; 114]%N.

(** [key not in st.session_state] *)
Definition not_in_session_state (key : string) : M bool :=
  gets (fun w => bool_decide (session_state w !! key = None)).

(** [st.session_state.key = v] *)
Definition session_state_set (key : string) (v : pyval) : M unit :=
  modify (fun w => set_session_state (<[key := v]> (session_state w)) w).

(** [st.session_state.key]; an absent key raises [AttributeError]. *)
Definition session_state_get (key : string) : M pyval :=
  v <- gets (fun w => session_state w !! key) ;;
  match v with
  | Some x => ret x
  | None => raise AttributeError
  end.

(** The path of the temporary file of a run: the name [tempfile] picks,
    with the suffix asked for. *)
Definition temp_path (env : Env) : string := (temp_name env +:+ ".pdf")%string.

(** [with tempfile.NamedTemporaryFile(delete=False, suffix=".pdf") as tmp_file:
       tmp_file.write(pdf_bytes); temp_path = tmp_file.name]
    With [delete=False] leaving the [with] block closes the file and keeps
    it, also when [write] raises. *)
Definition NamedTemporaryFile_write (env : Env) (pdf_bytes : pybytes) : M string :=
  tick (d_tmp env) ;;
  match create_error env with
  | Some e => raise e
  | None =>
      modify (fun w => set_fs (<[temp_path env := []]> (fs w)) w) ;;
      match write_error env with
      | Some e => raise e
      | None =>
          modify (fun w => set_fs (<[temp_path env := pdf_bytes]> (fs w)) w) ;;
          ret (temp_path env)
      end
  end.

(** [os.path.exists(path)] *)
Definition os_path_exists (path : string) : M bool :=
  gets (fun w => bool_decide (is_Some (fs w !! path))).

(** [os.remove(path)] *)
Definition os_remove (env : Env) (path : string) : M unit :=
  tick (d_remove env) ;;
  match remove_error env with
  | Some e => raise e
  | None =>
      present <- os_path_exists path ;;
      if present : bool
      then modify (fun w => set_fs (delete path (fs w)) w)
      else raise FileNotFoundError
  end.

(** ** The engine loader *)

(** [@st.cache_resource] on a function without arguments: one cell per
    process.  A call that finds the cell filled returns its content; a
    call that finds it empty runs the body and fills the cell when the
    body returns.  A body that raises leaves the cell empty. *)
Definition cache_resource (body : M Handle) : M Handle :=
  cell <- gets resource_cache ;;
  match cell with
  | Some h => ret h
  | None =>
      h <- body ;;
      modify (set_resource_cache (Some h)) ;;
      ret h
  end.

(** The body of [load_model]: [create_model_dict] and [PdfConverter]. *)
Definition load_model_body (construct_error : option exn) : M Handle :=
  n <- gets constructions ;;
  modify (set_constructions (S n)) ;;
  match construct_error with
  | Some e => raise e
  | None => ret n
  end.

Definition load_model (construct_error : option exn) : M Handle :=
  cache_resource (load_model_body construct_error).

(** ** The conversion helper *)

(** [rendered = converter(pdf_path); text, _, _ = text_from_rendered(rendered)]:
    the engine reads the file at [pdf_path]. *)
Definition process_pdf (env : Env) (converter : Handle) (pdf_path : string) : M pystr :=
  tick (d_engine env) ;;
  contents <- gets (fun w => fs w !! pdf_path) ;;
  match contents with
  | None => raise FileNotFoundError
  | Some b =>
      match converter_call env converter b with
      | Ok text => ret text
      | Raise e => raise e
      end
  end.

(** ** String operations of the display code *)

(** [str.isspace] on one code point: the characters Python counts as
    white space. *)
Definition isspace (c : N) : bool :=
  ((9 <=? c) && (c <=? 13) || (28 <=? c) && (c <=? 32)
   || (c =? 133) || (c =? 160) || (c =? 5760)
   || (8192 <=? c) && (c <=? 8202)
   || (c =? 8232) || (c =? 8233) || (c =? 8239) || (c =? 8287)
   || (c =? 12288))%N.

(** [text.split()]: the scan of [str.split] without a separator.  [word]
    is the token being read, if one has started. *)
Fixpoint split_from (word : option pystr) (s : pystr) : list pystr :=
  match s with
  | [] => match word with
          | Some t => [t]
          | None => []
          end
  | c :: rest =>
      if isspace c
      then match word with
           | Some t => t :: split_from None rest
           | None => split_from None rest
           end
      else match word with
           | Some t => split_from (Some (t ++ [c])) rest
           | None => split_from (Some [c]) rest
           end
  end.

Definition split (s : pystr) : list pystr := split_from None s.

(** The number of white-space separated tokens, said without building
    them: the positions where a token starts, that is a character that is
    not white space and is the first of the text or follows white space.
    [after_space] tells whether the previous character was white space
    (or there is none). *)
Fixpoint token_starts (after_space : bool) (s : pystr) : nat :=
  match s with
  | [] => O
  | c :: rest =>
      if isspace c then token_starts true rest
      else if after_space then S (token_starts false rest)
      else token_starts false rest
  end.

Definition whitespace_token_count (s : pystr) : nat := token_starts true s.

(** [s.replace(old, new)] for a non-empty [old]: occurrences are replaced
    from left to right, without overlap.  [skip] counts the characters of
    an occurrence that are still to be passed over. *)
Fixpoint is_prefix (p s : pystr) : bool :=
  match p, s with
  | [], _ => true
  | _ :: _, [] => false
  | a :: p', b :: s' => (a =? b)%N && is_prefix p' s'
  end.

Fixpoint replace_from (old new : pystr) (skip : nat) (s : pystr) : pystr :=
  match s with
  | [] => []
  | c :: rest =>
      match skip with
      | S k => replace_from old new k rest
      | O =>
          if is_prefix old s
          then new ++ replace_from old new (length old - 1) rest
          else c :: replace_from old new O rest
      end
  end.

Definition replace (old new s : pystr) : pystr := replace_from old new O s.

Definition dot_pdf : pystr := [46; 112; 100; 102]%N.                 (* .pdf *)
Definition ocr_md : pystr := [95; 111; 99; 114; 46; 109; 100]%N.     (* _ocr.md *)
Definition ocr_txt : pystr := [95; 111; 99; 114; 46; 116; 120; 116]%N. (* _ocr.txt *)

(** The caption of [st.error]: a cross mark and the words for
    "processing error", a colon and a space. *)
Definition error_caption : pystr :=
  [10060; 32; 76; 7895; 105; 32; 120; 7917; 32; 108; 253; 58; 32]%N.

(** [len(x)] and [x.split()] on a stored value; only a [str] has them. *)
Definition len (v : pyval) : M nat :=
  match v with
  | PStr s => ret (length s)
  | _ => raise TypeError
  end.

Definition split_method (v : pyval) : M (list pystr) :=
  match v with
  | PStr s => ret (split s)
  | _ => raise AttributeError
  end.

(** [f"{x:.2f}"]: only a number can be formatted so. *)
Definition format_2f (v : pyval) : M Z :=
  match v with
  | PFloat t => ret t
  | _ => raise TypeError
  end.

(** ** The page script *)

(** Lines 58-62: both keys are given [None] if they are not there yet. *)
Definition main_init : M unit :=
  absent <- not_in_session_state "ocr_result" ;;
  (if absent : bool then session_state_set "ocr_result" PNone else ret tt) ;;
  absent <- not_in_session_state "ocr_time" ;;
  (if absent : bool then session_state_set "ocr_time" PNone else ret tt).

(** Lines 98-101: the [finally] block of the conversion. *)
Definition cleanup (env : Env) (temp_path : string) : M unit :=
  present <- os_path_exists temp_path ;;
  if present : bool then os_remove env temp_path else ret tt.

(** Lines 78-101: what a click on the button runs. *)
Definition main_convert (env : Env) (converter : Handle) (pdf_bytes : pybytes) : M unit :=
  start_time <- time_time ;;
  temp_path <- NamedTemporaryFile_write env pdf_bytes ;;
  try_except_finally
    (text <- process_pdf env converter temp_path ;;
     now <- time_time ;;
     let elapsed_time := now - start_time in
     session_state_set "ocr_result" (PStr text) ;;
     session_state_set "ocr_time" (PFloat elapsed_time))
    (fun e => emit (Error (error_caption ++ exn_str e)))
    (cleanup env temp_path).

(** Lines 104-179: the result, the exports and the statistics. *)
Definition main_display (f : UploadedFile) (pdf_bytes : pybytes) : M unit :=
  ocr_result <- session_state_get "ocr_result" ;;
  match ocr_result with
  | PNone => ret tt
  | text =>
      elapsed_time <- session_state_get "ocr_time" ;;
      shown <- format_2f elapsed_time ;;
      emit (SuccessDone shown) ;;
      emit (Static "---") ;;
      emit (Static "heading: OCR result") ;;
      emit (Static "heading: original PDF") ;;
      emit (PdfIframe pdf_bytes) ;;
      emit (Static "heading: rendered view") ;;
      emit (Markdown text) ;;
      emit (Static "---") ;;
      emit (Static "heading: raw markdown") ;;
      emit (Code text) ;;
      emit (Markdown text) ;;
      emit (DownloadButton text (replace dot_pdf [] (name f) ++ ocr_md) "text/markdown") ;;
      emit (DownloadButton text (replace dot_pdf [] (name f) ++ ocr_txt) "text/plain") ;;
      emit (Static "---") ;;
      emit (Static "heading: statistics") ;;
      shown <- format_2f elapsed_time ;;
      emit (MetricTime shown) ;;
      n <- len text ;;
      emit (MetricChars n) ;;
      words <- split_method text ;;
      let word_count := length words in
      emit (MetricWords word_count)
  end.

(** Lines 64-179: what is shown for an uploaded file. *)
Definition main_document (env : Env) (converter : Handle) (f : UploadedFile) : M unit :=
  let pdf_bytes := getvalue f in
  emit (InfoName (name f)) ;;
  emit (InfoSize (length pdf_bytes)) ;;
  (if button env then main_convert env converter pdf_bytes else ret tt) ;;
  main_display f pdf_bytes.

(** Lines 47-188: the page once the engine is there. *)
Definition main_page (env : Env) (converter : Handle) : M unit :=
  emit SuccessReady ;;
  emit (Static "---") ;;
  main_init ;;
  match uploaded_file env with
  | Some f => main_document env converter f
  | None => ret tt
  end ;;
  emit (Static "---") ;;
  emit (Static "footer").

Definition main (env : Env) : M unit :=
  emit (Static "title") ;;
  emit (Static "subtitle") ;;
  converter <- load_model (construct_error env) ;;
  main_page env converter.

(** One run of the script: Streamlit clears the page and runs [main]. *)
Definition run_script (env : Env) (w : World) : result unit * World :=
  main env (set_page [] w).

(** A session: the runs follow one another on the same world; an
    exception that leaves [main] ends that run only. *)
Fixpoint run_session (envs : list Env) (w : World) : World :=
  match envs with
  | [] => w
  | env :: rest => run_session rest (snd (run_script env w))
  end.

(** A fresh process with a fresh session. *)
Definition initial_world : World := mkWorld 0 ∅ None O ∅ [].

(** ** Sample inputs *)

Definition doc_A : UploadedFile := mkUploadedFile [97; 46; 112; 100; 102]%N [1; 2; 3]%N.
Definition doc_B : UploadedFile := mkUploadedFile [98; 46; 112; 100; 102]%N [4; 5]%N.

Definition text_A : pystr := [72; 105; 32; 65]%N.                 (* Hi A *)
Definition text_B : pystr := [116; 119; 111; 32; 32; 98; 10]%N.   (* two  b\n *)

Definition sample_engine (h : Handle) (b : pybytes) : result pystr :=
  match b with
  | [1; 2; 3]%N => Ok text_A
  | [4; 5]%N => Ok text_B
  | _ => Raise (Exn [98; 97; 100]%N)                              (* bad *)
  end.

(** A run in which nothing fails: creating and writing the file takes 5
    ticks, the engine 7, the deletion 11. *)
Definition sample_env (f : option UploadedFile) (click : bool) : Env :=
  mkEnv f click None "tmp0" None None sample_engine None 5 7 11.

(** The same run when [os.remove] raises. *)
Definition remove_failure : exn := Exn [100; 101; 110; 105; 101; 100]%N.  (* denied *)

Definition failing_remove_env : Env :=
  mkEnv (Some doc_A) true None "tmp0" None None sample_engine (Some remove_failure) 5 7 11.

(** An engine that rejects every document. *)
Definition engine_failure : exn := Exn [98; 97; 100]%N.                   (* bad *)

Definition failing_engine (h : Handle) (b : pybytes) : result pystr :=
  Raise engine_failure.

Definition failing_engine_env (f : option UploadedFile) : Env :=
  mkEnv f true None "tmp0" None None failing_engine None 5 7 11.

(** A run in which the engine cannot be built. *)
Definition construct_failure : exn := Exn [111; 111; 109]%N.              (* oom *)

(** ** Reading the worlds *)

(** The converter [load_model] hands to a run, when it returns: the
    cached one, or the one built by this run. *)
Definition loaded_handle (env : Env) (w : World) : option Handle :=
  match resource_cache w with
  | Some h => Some h
  | None =>
      match construct_error env with
      | Some _ => None
      | None => Some (constructions w)
      end
  end.

(** The world [load_model] leaves when it returns [h]. *)
Definition after_load (h : Handle) (w : World) : World :=
  match resource_cache w with
  | Some _ => w
  | None => set_resource_cache (Some h) (set_constructions (S (constructions w)) w)
  end.

(** The store [main_init] leaves. *)
Definition setdefault (key : string) (ss : gmap string pyval) : gmap string pyval :=
  match ss !! key with
  | Some _ => ss
  | None => <[key := PNone]> ss
  end.

Definition initialised (ss : gmap string pyval) : gmap string pyval :=
  setdefault "ocr_time" (setdefault "ocr_result" ss).

(** The world in which the button of an uploaded file is looked at: the
    engine is loaded, both keys are there, and the page shows the
    captions and the file's name and size. *)
Definition document_page (f : UploadedFile) : list element :=
  [ Static "title"; Static "subtitle"; SuccessReady; Static "---";
    InfoName (name f); InfoSize (length (getvalue f)) ].

Definition document_world (h : Handle) (f : UploadedFile) (w : World) : World :=
  set_session_state (initialised (session_state w))
    (set_page (document_page f) (after_load h w)).

(** The world the conversion block leaves when the temporary file could
    be created and written: the clock has advanced by the three
    durations, the file is gone unless [os.remove] raised, and either the
    text and its timing are stored or the error is on the page. *)
Definition converted_world (env : Env) (h : Handle) (f : UploadedFile) (w : World)
    : World :=
  let d := document_world h f w in
  mkWorld (clock w + d_tmp env + d_engine env + d_remove env)
    match remove_error env with
    | None => delete (temp_path env) (fs w)
    | Some _ => <[temp_path env := getvalue f]> (fs w)
    end
    (resource_cache d) (constructions d)
    match converter_call env h (getvalue f) with
    | Ok text => <["ocr_time" := PFloat (d_tmp env + d_engine env)]>
                   (<["ocr_result" := PStr text]> (session_state d))
    | Raise _ => session_state d
    end
    match converter_call env h (getvalue f) with
    | Ok _ => page d
    | Raise e => page d ++ [Error (error_caption ++ exn_str e)]
    end.

(** [st.session_state.get(key)]: [None] for an absent key. *)
Definition stored (key : string) (w : World) : pyval :=
  default PNone (session_state w !! key).

(** The result text and its timing are there together or not at all. *)
Definition paired (w : World) : Prop :=
  stored "ocr_result" w = PNone <-> stored "ocr_time" w = PNone.

(** The store holds nothing, or a text with its timing. *)
Definition well_stored (w : World) : Prop :=
  (stored "ocr_result" w = PNone /\ stored "ocr_time" w = PNone)
  \/ (exists text t, session_state w !! "ocr_result" = Some (PStr text)
                     /\ session_state w !! "ocr_time" = Some (PFloat t)).

(** The states of one session as the specification names them
    (section 4.4), read off the widgets and the store: no document; a
    document and no result; a document and a result. *)
Inductive phase : Type :=
| NoDocument
| DocumentUploaded
| Converted (text : pyval).

Definition session_phase (env : Env) (w : World) : phase :=
  match uploaded_file env with
  | None => NoDocument
  | Some _ =>
      match stored "ocr_result" w with
      | PNone => DocumentUploaded
      | text => Converted text
      end
  end.

(** What [main_display] puts on the page for a stored text and timing. *)
Definition shown (f : UploadedFile) (pdf_bytes : pybytes) (text : pystr) (t : Z)
    : list element :=
  [ SuccessDone t; Static "---"; Static "heading: OCR result";
    Static "heading: original PDF"; PdfIframe pdf_bytes;
    Static "heading: rendered view"; Markdown (PStr text);
    Static "---"; Static "heading: raw markdown";
    Code (PStr text); Markdown (PStr text);
    DownloadButton (PStr text) (replace dot_pdf [] (name f) ++ ocr_md) "text/markdown";
    DownloadButton (PStr text) (replace dot_pdf [] (name f) ++ ocr_txt) "text/plain";
    Static "---"; Static "heading: statistics";
    MetricTime t; MetricChars (length text); MetricWords (length (split text)) ].

(** [N] calls of the loader in one process; the [i]-th call meets the
    construction outcome [cs !! i] if it has to build the engine. *)
Fixpoint load_model_calls (cs : list (option exn)) (w : World)
    : list (result Handle) * World :=
  match cs with
  | [] => ([], w)
  | c :: rest =>
      let '(r, w1) := load_model c w in
      let '(rs, w2) := load_model_calls rest w1 in
      (r :: rs, w2)
  end.

Definition raised {A} (r : result A) : bool :=
  match r with
  | Ok _ => false
  | Raise _ => true
  end.

(** How many of the calls raised. *)
Definition raise_count (rs : list (result Handle)) : nat :=
  length (List.filter raised rs).

(** A property of the world that a computation keeps, however it ends. *)
Definition preserves {A} (I : World -> Prop) (m : M A) : Prop :=
  forall w, I w -> I (snd (m w)).

(** ** One run as a transition *)

(** What a run with no file uploaded puts on the page. *)
Definition no_document_page : list element :=
  [ Static "title"; Static "subtitle"; SuccessReady; Static "---";
    Static "---"; Static "footer" ].

(** The world a run leaves, its page aside: every way through [main]. *)
Definition next_world (env : Env) (w : World) : World :=
  match loaded_handle env w with
  | None => set_constructions (S (constructions w)) w
  | Some h =>
      let w0 := set_session_state (initialised (session_state w)) (after_load h w) in
      match uploaded_file env with
      | None => w0
      | Some f =>
          if button env
          then match create_error env with
               | Some _ => set_clock (clock w + d_tmp env) w0
               | None =>
                   match write_error env with
                   | Some _ =>
                       set_fs (<[temp_path env := []]> (fs w))
                         (set_clock (clock w + d_tmp env) w0)
                   | None => converted_world env h f w
                   end
               end
          else w0
      end
  end.


(** [old in s], for a non-empty [old]. *)
Fixpoint occurs (old s : pystr) : bool :=
  is_prefix old s
  || match s with
     | [] => false
     | _ :: rest => occurs old rest
     end.

(** Runs in which the temporary file cannot be created or written, and
    in which the engine cannot be built. *)
Definition disk_failure : exn := Exn [102; 117; 108; 108]%N.              (* full *)

Definition failing_create_env : Env :=
  mkEnv (Some doc_A) true None "tmp0" (Some disk_failure) None sample_engine None 5 7 11.

Definition failing_write_env : Env :=
  mkEnv (Some doc_A) true None "tmp0" None (Some disk_failure) sample_engine None 5 7 11.

Definition failing_construct_env : Env :=
  mkEnv (Some doc_A) true (Some construct_failure) "tmp0" None None sample_engine None 5 7 11.

(** A file whose name has the extension in upper case: A.PDF. *)
Definition doc_upper : UploadedFile := mkUploadedFile [65; 46; 80; 68; 70]%N [1; 2; 3]%N.

(** * Properties

    ** How the blocks of the script run *)

Lemma bind_ok {A B} (m : M A) (k : A -> M B) w a w' :
  m w = (Ok a, w') -> bind m k w = k a w'.
Proof. intros H. unfold bind. rewrite H. reflexivity. Qed.

Lemma bind_raise {A B} (m : M A) (k : A -> M B) w e w' :
  m w = (Raise e, w') -> bind m k w = (Raise e, w').
Proof. intros H. unfold bind. rewrite H. reflexivity. Qed.

(** *** The loader *)

Lemma load_model_cached c w h :
  resource_cache w = Some h -> load_model c w = (Ok h, w).
Proof.
  intros H. unfold load_model, cache_resource, bind, gets. rewrite H. reflexivity.
Qed.

Lemma load_model_builds w :
  resource_cache w = None ->
  load_model None w
  = (Ok (constructions w),
     set_resource_cache (Some (constructions w)) (set_constructions (S (constructions w)) w)).
Proof.
  intros H. unfold load_model, cache_resource, bind, gets. rewrite H. reflexivity.
Qed.

Lemma load_model_fails e w :
  resource_cache w = None ->
  load_model (Some e) w = (Raise e, set_constructions (S (constructions w)) w).
Proof.
  intros H. unfold load_model, cache_resource, bind, gets. rewrite H. reflexivity.
Qed.

(** *** The temporary file *)

Lemma NamedTemporaryFile_write_ok env b w :
  create_error env = None -> write_error env = None ->
  NamedTemporaryFile_write env b w
  = (Ok (temp_path env),
     set_fs (<[temp_path env := b]> (fs w)) (set_clock (clock w + d_tmp env) w)).
Proof.
  intros Hc Hw. unfold NamedTemporaryFile_write, bind, tick, modify.
  rewrite Hc, Hw. simpl. rewrite insert_insert_eq. reflexivity.
Qed.

Lemma process_pdf_run env h p b w :
  fs w !! p = Some b ->
  process_pdf env h p w = (converter_call env h b, set_clock (clock w + d_engine env) w).
Proof.
  intros H. unfold process_pdf, bind, tick, modify, gets. simpl. rewrite H.
  destruct (converter_call env h b); reflexivity.
Qed.

Lemma cleanup_run env p b w :
  fs w !! p = Some b ->
  cleanup env p w
  = match remove_error env with
    | None => (Ok tt, set_fs (delete p (fs w)) (set_clock (clock w + d_remove env) w))
    | Some e => (Raise e, set_clock (clock w + d_remove env) w)
    end.
Proof.
  intros H. unfold cleanup, os_remove, os_path_exists, bind, tick, modify, gets. simpl.
  rewrite H. rewrite bool_decide_eq_true_2 by eauto.
  destruct (remove_error env); [reflexivity|].
  rewrite bool_decide_eq_true_2 by eauto. reflexivity.
Qed.


Lemma finally_unit (c : result unit * World) :
  (let (r, w) := c in
   match r with
   | Ok _ => (Ok tt, w)
   | Raise e => (Raise e, w)
   end) = c.
Proof. destruct c as [[[]|e] w]; reflexivity. Qed.

Lemma main_convert_run env h b w :
  create_error env = None -> write_error env = None ->
  main_convert env h b w
  = cleanup env (temp_path env)
      (let w1 := set_fs (<[temp_path env := b]> (fs w))
                   (set_clock (clock w + d_tmp env + d_engine env) w) in
       match converter_call env h b with
       | Ok text =>
           set_session_state
             (<["ocr_time" := PFloat (d_tmp env + d_engine env)]>
                (<["ocr_result" := PStr text]> (session_state w))) w1
       | Raise e => set_page (page w ++ [Error (error_caption ++ exn_str e)]) w1
       end).
Proof.
  intros Hc Hw. unfold main_convert.
  unfold bind at 1. unfold time_time, gets.
  erewrite bind_ok by (apply NamedTemporaryFile_write_ok; assumption).
  unfold try_except_finally.
  unfold bind at 1.
  erewrite process_pdf_run by (simpl; apply lookup_insert_eq).
  destruct (converter_call env h b) as [text|e]; simpl.
  - replace (clock w + d_tmp env + d_engine env - clock w) with (d_tmp env + d_engine env) by lia.
    rewrite finally_unit. reflexivity.
  - rewrite finally_unit. reflexivity.
Qed.

Lemma main_convert_outcome env h b w :
  create_error env = None -> write_error env = None ->
  main_convert env h b w
  = let ss := match converter_call env h b with
              | Ok text => <["ocr_time" := PFloat (d_tmp env + d_engine env)]>
                             (<["ocr_result" := PStr text]> (session_state w))
              | Raise _ => session_state w
              end in
    let pg := match converter_call env h b with
              | Ok _ => page w
              | Raise e => page w ++ [Error (error_caption ++ exn_str e)]
              end in
    let t := clock w + d_tmp env + d_engine env + d_remove env in
    match remove_error env with
    | None => (Ok tt, mkWorld t (delete (temp_path env) (fs w))
                        (resource_cache w) (constructions w) ss pg)
    | Some e' => (Raise e', mkWorld t (<[temp_path env := b]> (fs w))
                        (resource_cache w) (constructions w) ss pg)
    end.
Proof.
  intros Hc Hw. rewrite main_convert_run by assumption.
  erewrite cleanup_run; cycle 1.
  { destruct (converter_call env h b); simpl; apply lookup_insert_eq. }
  destruct (remove_error env), (converter_call env h b); simpl;
    rewrite ?delete_insert_eq; reflexivity.
Qed.

Lemma load_model_run env w h :
  loaded_handle env w = Some h ->
  load_model (construct_error env) w = (Ok h, after_load h w).
Proof.
  unfold loaded_handle, after_load. intros H.
  destruct (resource_cache w) as [h'|] eqn:Hc.
  - inversion H; subst. apply load_model_cached. assumption.
  - destruct (construct_error env); [discriminate|]. inversion H; subst.
    apply load_model_builds. assumption.
Qed.

Lemma main_init_run w :
  main_init w = (Ok tt, set_session_state (initialised (session_state w)) w).
Proof.
  unfold main_init, initialised, setdefault, bind, not_in_session_state, gets,
    session_state_set, modify, ret.
  destruct (session_state w !! "ocr_result") as [v|] eqn:Hr; simpl.
  - destruct (session_state w !! "ocr_time") as [v'|] eqn:Ht; simpl.
    + destruct w; reflexivity.
    + reflexivity.
  - rewrite lookup_insert_ne by done.
    destruct (session_state w !! "ocr_time") as [v'|] eqn:Ht; reflexivity.
Qed.

Lemma initialised_result ss :
  initialised ss !! "ocr_result" = Some (default PNone (ss !! "ocr_result")).
Proof.
  unfold initialised, setdefault.
  destruct (ss !! "ocr_result") as [v|] eqn:Hr.
  - destruct (ss !! "ocr_time") eqn:Ht; [|rewrite lookup_insert_ne by done]; rewrite Hr; reflexivity.
  - rewrite lookup_insert_ne by done.
    destruct (ss !! "ocr_time") eqn:Ht.
    + apply lookup_insert_eq.
    + rewrite lookup_insert_ne by done. apply lookup_insert_eq.
Qed.

Lemma initialised_time ss :
  initialised ss !! "ocr_time" = Some (default PNone (ss !! "ocr_time")).
Proof.
  unfold initialised, setdefault.
  destruct (ss !! "ocr_result") as [v|] eqn:Hr.
  - destruct (ss !! "ocr_time") eqn:Ht; [rewrite Ht; reflexivity|apply lookup_insert_eq].
  - rewrite lookup_insert_ne by done.
    destruct (ss !! "ocr_time") eqn:Ht.
    + rewrite lookup_insert_ne by done. rewrite Ht. reflexivity.
    + apply lookup_insert_eq.
Qed.

(** *** The display *)

Lemma main_display_none f b w :
  session_state w !! "ocr_result" = Some PNone -> main_display f b w = (Ok tt, w).
Proof.
  intros H. unfold main_display, session_state_get, bind, gets. rewrite H. reflexivity.
Qed.

Ltac run_display :=
  cbv [bind ret raise gets modify emit format_2f len split_method
       session_state_get set_page clock fs resource_cache constructions
       session_state page].

Lemma main_display_text f b w text t :
  session_state w !! "ocr_result" = Some (PStr text) ->
  session_state w !! "ocr_time" = Some (PFloat t) ->
  main_display f b w = (Ok tt, set_page (page w ++ shown f b text t) w).
Proof.
  destruct w as [c fs0 rc n ss pg]. cbn [session_state]. intros Hr Ht.
  unfold main_display. run_display. rewrite Hr. cbv beta iota. rewrite Ht.
  cbv beta iota. unfold shown. rewrite <- !app_assoc. reflexivity.
Qed.

Lemma main_display_frame f b w :
  exists pg, snd (main_display f b w) = set_page (page w ++ pg) w.
Proof.
  destruct w as [c fs0 rc n ss pg].
  unfold main_display. run_display.
  destruct (ss !! "ocr_result") as [[|text|x]|]; cbv beta iota;
    try (exists []; rewrite app_nil_r; reflexivity);
    destruct (ss !! "ocr_time") as [[| |t]|]; cbv beta iota;
    try (exists []; rewrite app_nil_r; reflexivity);
    eexists; cbn [snd]; rewrite <- !app_assoc; reflexivity.
Qed.

Lemma main_display_ok f b w w' text :
  main_display f b w = (Ok tt, w') ->
  session_state w !! "ocr_result" = Some (PStr text) ->
  exists t, session_state w !! "ocr_time" = Some (PFloat t)
            /\ w' = set_page (page w ++ shown f b text t) w.
Proof.
  intros Hrun Hr.
  destruct (session_state w !! "ocr_time") as [[| |t]|] eqn:Ht.
  4: exfalso; revert Hrun Hr Ht; destruct w as [c fs0 rc n ss pg]; cbn [session_state];
     intros Hrun Hr Ht; revert Hrun; unfold main_display; run_display;
     rewrite Hr; cbv beta iota; rewrite Ht; discriminate.
  1,2: exfalso; revert Hrun Hr Ht; destruct w as [c fs0 rc n ss pg]; cbn [session_state];
     intros Hrun Hr Ht; revert Hrun; unfold main_display; run_display;
     rewrite Hr; cbv beta iota; rewrite Ht; discriminate.
  exists t. split; [reflexivity|].
  rewrite (main_display_text f b w text t Hr Ht) in Hrun. congruence.
Qed.

(** *** Whole runs *)

Ltac world_simpl :=
  unfold set_page, set_clock, set_fs, set_resource_cache, set_constructions,
    set_session_state;
  cbn [clock fs resource_cache constructions session_state page app].

Ltac emit_step :=
  unfold bind at 1; unfold emit at 1; unfold modify at 1; cbv beta iota; world_simpl.

Lemma run_script_loaded env w h :
  loaded_handle env w = Some h ->
  run_script env w
  = main_page env h (after_load h (set_page [Static "title"; Static "subtitle"] w)).
Proof.
  intros H. unfold run_script, main. destruct w as [c fs0 rc n ss pg].
  do 2 emit_step. unfold bind at 1.
  rewrite (load_model_run env _ h) by exact H.
  reflexivity.
Qed.

Lemma main_page_document env h f w :
  uploaded_file env = Some f ->
  main_page env h w
  = (((if button env then main_convert env h (getvalue f) else ret tt) ;;
      main_display f (getvalue f)) ;;
     emit (Static "---") ;; emit (Static "footer"))
      (set_session_state (initialised (session_state w))
         (set_page (page w ++ [ SuccessReady; Static "---";
                                InfoName (name f); InfoSize (length (getvalue f)) ]) w)).
Proof.
  intros Hu. unfold main_page, main_document. rewrite Hu.
  destruct w as [c fs0 rc n ss pg].
  do 2 emit_step. unfold bind at 1. rewrite main_init_run. cbv beta iota. world_simpl.
  unfold bind at 1. do 2 emit_step. rewrite <- !app_assoc. reflexivity.
Qed.

Lemma run_script_document env w h f :
  loaded_handle env w = Some h -> uploaded_file env = Some f ->
  run_script env w
  = (((if button env then main_convert env h (getvalue f) else ret tt) ;;
      main_display f (getvalue f)) ;;
     emit (Static "---") ;; emit (Static "footer")) (document_world h f w).
Proof.
  intros Hl Hu. rewrite (run_script_loaded env w h Hl).
  rewrite (main_page_document env h f _ Hu).
  destruct w as [c fs0 rc n ss pg]. unfold document_world, after_load.
  world_simpl. destruct rc; reflexivity.
Qed.

Ltac emit_last :=
  unfold emit at 1; unfold modify at 1; cbv beta iota; world_simpl.

Lemma footer_text f b w text t :
  session_state w !! "ocr_result" = Some (PStr text) ->
  session_state w !! "ocr_time" = Some (PFloat t) ->
  (main_display f b ;; emit (Static "---") ;; emit (Static "footer")) w
  = (Ok tt, set_page (page w ++ shown f b text t ++ [Static "---"; Static "footer"]) w).
Proof.
  intros Hr Ht. unfold bind at 1. rewrite (main_display_text f b w text t Hr Ht).
  destruct w as [c fs0 rc n ss pg]. emit_step. emit_last.
  rewrite <- !app_assoc. reflexivity.
Qed.

Lemma footer_none f b w :
  session_state w !! "ocr_result" = Some PNone ->
  (main_display f b ;; emit (Static "---") ;; emit (Static "footer")) w
  = (Ok tt, set_page (page w ++ [Static "---"; Static "footer"]) w).
Proof.
  intros Hr. unfold bind at 1. rewrite (main_display_none f b w Hr).
  destruct w as [c fs0 rc n ss pg]. emit_step. emit_last.
  rewrite <- !app_assoc. reflexivity.
Qed.

Lemma footer_frame f b w :
  exists pg,
    snd ((main_display f b ;; emit (Static "---") ;; emit (Static "footer")) w)
    = set_page (page w ++ pg) w.
Proof.
  unfold bind at 1.
  destruct (main_display_frame f b w) as [pg Hpg].
  destruct (main_display f b w) as [[[]|e] w1]; cbn [snd] in *; subst w1.
  - destruct w as [c fs0 rc n ss pg0]. emit_step. emit_last. cbn [snd].
    eexists. rewrite <- !app_assoc. reflexivity.
  - exists pg. reflexivity.
Qed.

Lemma initialised_full ss r t :
  ss !! "ocr_result" = Some r -> ss !! "ocr_time" = Some t -> initialised ss = ss.
Proof. intros Hr Ht. unfold initialised, setdefault. rewrite Hr, Ht. reflexivity. Qed.

Lemma run_script_rerender env w h f text t :
  loaded_handle env w = Some h ->
  uploaded_file env = Some f -> button env = false ->
  session_state w !! "ocr_result" = Some (PStr text) ->
  session_state w !! "ocr_time" = Some (PFloat t) ->
  run_script env w
  = (Ok tt,
     set_page (page (document_world h f w) ++ shown f (getvalue f) text t
               ++ [Static "---"; Static "footer"])
       (document_world h f w)).
Proof.
  intros Hl Hu Hb Hr Ht.
  rewrite (run_script_document env w h f Hl Hu). rewrite Hb.
  pose proof (initialised_full _ _ _ Hr Ht) as Hi.
  unfold bind at 1. unfold bind at 1. unfold ret at 1. cbv beta iota.
  match goal with |- context [main_display ?f ?b ?x] =>
    pose proof (footer_text f b x text t) as Hf end.
  unfold bind at 1 in Hf. apply Hf.
  - unfold document_world. world_simpl. rewrite Hi. exact Hr.
  - unfold document_world. world_simpl. rewrite Hi. exact Ht.
Qed.

Lemma document_world_cache env w h f :
  loaded_handle env w = Some h -> resource_cache (document_world h f w) = Some h.
Proof.
  unfold loaded_handle, document_world, after_load. world_simpl.
  destruct (resource_cache w) eqn:Hc; intros H.
  - rewrite Hc. exact H.
  - reflexivity.
Qed.

Lemma run_script_convert env w h f :
  loaded_handle env w = Some h ->
  uploaded_file env = Some f -> button env = true ->
  create_error env = None -> write_error env = None ->
  run_script env w
  = match remove_error env with
    | None =>
        (main_display f (getvalue f) ;; emit (Static "---") ;; emit (Static "footer"))
          (converted_world env h f w)
    | Some e' => (Raise e', converted_world env h f w)
    end.
Proof.
  intros Hl Hu Hb Hc Hw.
  rewrite (run_script_document env w h f Hl Hu). rewrite Hb.
  unfold bind at 1. unfold bind at 1.
  rewrite main_convert_outcome by assumption.
  unfold converted_world.
  assert (Hclock : clock (document_world h f w) = clock w).
  { unfold document_world, after_load. destruct (resource_cache w); reflexivity. }
  assert (Hfs : fs (document_world h f w) = fs w).
  { unfold document_world, after_load. destruct (resource_cache w); reflexivity. }
  rewrite Hclock, Hfs.
  destruct (remove_error env) as [e'|]; cbv zeta beta iota; reflexivity.
Qed.

Lemma run_script_convert_frame env w h f :
  loaded_handle env w = Some h ->
  uploaded_file env = Some f -> button env = true ->
  create_error env = None -> write_error env = None ->
  exists pg,
    snd (run_script env w)
    = set_page (page (converted_world env h f w) ++ pg) (converted_world env h f w).
Proof.
  intros Hl Hu Hb Hc Hw. rewrite (run_script_convert env w h f Hl Hu Hb Hc Hw).
  destruct (remove_error env) as [e'|] eqn:Hrm.
  - exists []. cbn [snd]. rewrite app_nil_r.
    destruct (converted_world env h f w); reflexivity.
  - apply footer_frame.
Qed.

Lemma stored_initialised key ss w :
  key = "ocr_result" \/ key = "ocr_time" ->
  session_state w = initialised ss -> stored key w = default PNone (ss !! key).
Proof.
  intros Hk Hs. unfold stored. rewrite Hs.
  destruct Hk; subst key; [rewrite initialised_result|rewrite initialised_time];
    destruct (ss !! _); reflexivity.
Qed.

Lemma well_stored_initialised w :
  well_stored w ->
  (initialised (session_state w) !! "ocr_result" = Some PNone
   /\ initialised (session_state w) !! "ocr_time" = Some PNone)
  \/ (exists text t, initialised (session_state w) !! "ocr_result" = Some (PStr text)
                     /\ initialised (session_state w) !! "ocr_time" = Some (PFloat t)).
Proof.
  unfold well_stored, stored. rewrite initialised_result, initialised_time.
  intros [[Hr Ht]|(text & t & Hr & Ht)].
  - left. rewrite Hr, Ht. auto.
  - right. exists text, t. rewrite Hr, Ht. auto.
Qed.

Lemma footer_well_stored f b w ss :
  well_stored (set_session_state ss w) ->
  session_state w = initialised ss ->
  exists pg,
    (main_display f b ;; emit (Static "---") ;; emit (Static "footer")) w
    = (Ok tt, set_page (page w ++ pg) w).
Proof.
  intros Hws Hss.
  destruct (well_stored_initialised _ Hws) as [[Hr Ht]|(text & t & Hr & Ht)];
    cbn [session_state set_session_state] in Hr, Ht; rewrite <- Hss in Hr, Ht.
  - eexists. apply footer_none. exact Hr.
  - eexists. apply (footer_text f b w text t Hr Ht).
Qed.

Lemma in_shown_markdown f b text t v :
  In (Markdown v) (shown f b text t) -> v = PStr text.
Proof.
  unfold shown. intros H.
  repeat (destruct H as [H|H]; [try discriminate H; (inversion H; reflexivity)|]).
  destruct H.
Qed.

Lemma run_script_unloaded env w :
  loaded_handle env w = None -> exists e, fst (run_script env w) = Raise e.
Proof.
  unfold loaded_handle. intros H.
  destruct (resource_cache w) eqn:Hc; [discriminate|].
  destruct (construct_error env) as [e|] eqn:He; [|discriminate].
  exists e. unfold run_script, main. destruct w as [c fs0 rc n ss pg].
  do 2 emit_step. unfold bind at 1. rewrite He.
  rewrite load_model_fails by exact Hc. reflexivity.
Qed.

Lemma main_convert_page env h b w :
  exists errs,
    page (snd (main_convert env h b w)) = page w ++ errs
    /\ (errs = [] \/ exists m, errs = [Error m]).
Proof.
  destruct (create_error env) as [e1|] eqn:Hc.
  { exists []. split; [|auto]. rewrite app_nil_r.
    unfold main_convert, NamedTemporaryFile_write.
    cbv [bind time_time gets tick modify raise]. rewrite Hc. reflexivity. }
  destruct (write_error env) as [e2|] eqn:Hw.
  { exists []. split; [|auto]. rewrite app_nil_r.
    unfold main_convert, NamedTemporaryFile_write.
    cbv [bind time_time gets tick modify raise]. rewrite Hc, Hw. reflexivity. }
  rewrite main_convert_outcome by assumption.
  destruct (converter_call env h b) as [text|e].
  - exists []. split; [|auto]. rewrite app_nil_r.
    destruct (remove_error env); reflexivity.
  - eexists. split; [|right; eexists; reflexivity].
    destruct (remove_error env); reflexivity.
Qed.

Lemma run_script_ok env w w' f text :
  run_script env w = (Ok tt, w') ->
  uploaded_file env = Some f ->
  session_state w' !! "ocr_result" = Some (PStr text) ->
  exists errs t,
    page w' = document_page f ++ errs ++ shown f (getvalue f) text t
              ++ [Static "---"; Static "footer"]
    /\ (errs = [] \/ exists m, errs = [Error m])
    /\ session_state w' !! "ocr_time" = Some (PFloat t).
Proof.
  intros Hrun Hu Hr.
  destruct (loaded_handle env w) as [h|] eqn:Hl.
  2:{ destruct (run_script_unloaded env w Hl) as [e He]. rewrite Hrun in He. discriminate. }
  rewrite (run_script_document env w h f Hl Hu) in Hrun.
  unfold bind at 1 in Hrun. unfold bind at 1 in Hrun.
  set (X := document_world h f w) in *.
  assert (HC : exists errs,
             page (snd ((if button env then main_convert env h (getvalue f) else ret tt) X))
             = page X ++ errs /\ (errs = [] \/ exists m, errs = [Error m])).
  { destruct (button env).
    - apply main_convert_page.
    - exists []. rewrite app_nil_r. auto. }
  destruct HC as (errs & Hpg & Herrs).
  destruct ((if button env then main_convert env h (getvalue f) else ret tt) X)
    as [[[]|e] wd]; [|discriminate].
  cbn [snd] in Hpg.
  destruct (main_display_frame f (getvalue f) wd) as [pg Hframe].
  destruct (main_display f (getvalue f) wd) as [[[]|e] we] eqn:HD; [|discriminate].
  cbn [snd] in Hframe.
  assert (Hw' : w' = set_page (page we ++ [Static "---"; Static "footer"]) we).
  { revert Hrun. destruct we as [c fs0 rc n ss pg0]. emit_step. emit_last.
    rewrite <- !app_assoc. cbn [app]. congruence. }
  assert (Hss : session_state w' = session_state wd).
  { rewrite Hw', Hframe. reflexivity. }
  rewrite Hss in Hr.
  destruct (main_display_ok f (getvalue f) wd we text HD Hr) as (t & Ht & Hwe).
  exists errs, t. split; [|split; [exact Herrs|rewrite Hss; exact Ht]].
  rewrite Hw', Hwe. cbn [page set_page]. rewrite Hpg.
  rewrite <- !app_assoc. reflexivity.
Qed.

Lemma in_page_cases (P : element -> Prop) f errs sh :
  (errs = [] \/ exists m, errs = [Error m]) ->
  (forall x, In x (document_page f) -> ~ P x) ->
  (forall m, ~ P (Error m)) -> (forall tag, ~ P (Static tag)) ->
  forall x, P x ->
    In x (document_page f ++ errs ++ sh ++ [Static "---"; Static "footer"]) -> In x sh.
Proof.
  intros Herrs Hdoc Herr Hstat x Px Hin.
  apply in_app_or in Hin. destruct Hin as [Hin|Hin]; [destruct (Hdoc x Hin Px)|].
  apply in_app_or in Hin. destruct Hin as [Hin|Hin].
  { destruct Herrs as [->|[m ->]]; [destruct Hin|].
    destruct Hin as [<-|[]]. destruct (Herr m Px). }
  apply in_app_or in Hin. destruct Hin as [Hin|Hin]; [exact Hin|].
  destruct Hin as [<-|[<-|[]]]; destruct (Hstat _ Px).
Qed.

(** ** White-space splitting and replacing *)

Lemma split_from_length (s : pystr) :
  (forall t, length (split_from (Some t) s) = S (token_starts false s))
  /\ length (split_from None s) = token_starts true s.
Proof.
  induction s as [|c rest [IHsome IHnone]]; [split; reflexivity|].
  split; [intros t|]; cbn [split_from token_starts]; destruct (isspace c); cbn [length];
    rewrite ?IHsome, ?IHnone; reflexivity.
Qed.

Lemma split_length (s : pystr) : length (split s) = whitespace_token_count s.
Proof. apply split_from_length. Qed.

Lemma split_from_tokens (s : pystr) :
  forall word,
    (forall t, word = Some t -> t <> [] /\ forallb (fun c => negb (isspace c)) t = true) ->
    Forall (fun t => t <> [] /\ forallb (fun c => negb (isspace c)) t = true)
           (split_from word s).
Proof.
  induction s as [|c rest IH]; intros word Hword; cbn [split_from].
  - destruct word as [t|]; [|constructor]. repeat constructor; apply (Hword t eq_refl).
  - destruct (isspace c) eqn:Hc.
    + destruct word as [t|].
      * constructor; [apply (Hword t eq_refl)|]. apply IH. intros ? [=].
      * apply IH. intros ? [=].
    + destruct word as [t|]; apply IH; intros t' [= <-].
      * destruct (Hword t eq_refl) as [_ Hall]. split.
        -- destruct t; discriminate.
        -- rewrite forallb_app, Hall. cbn. rewrite Hc. reflexivity.
      * split; [discriminate|]. cbn. rewrite Hc. reflexivity.
Qed.

(** X21.  Every token of [text.split()] is non-empty and holds no white
    space. *)
Lemma split_tokens (s : pystr) :
  Forall (fun t => t <> [] /\ forallb (fun c => negb (isspace c)) t = true) (split s).
Proof. apply split_from_tokens. intros ? [=]. Qed.

Lemma split_from_concat (s : pystr) :
  forall word,
    concat (split_from word s)
    = match word with
      | Some t => t
      | None => []
      end ++ List.filter (fun c => negb (isspace c)) s.
Proof.
  induction s as [|c rest IH]; intros word; cbn [split_from List.filter].
  - destruct word; cbn; rewrite ?app_nil_r; reflexivity.
  - destruct (isspace c); cbn [negb].
    + destruct word as [t|]; cbn [concat]; rewrite IH; reflexivity.
    + destruct word as [t|]; rewrite IH; rewrite <- ?app_assoc; reflexivity.
Qed.

(** X22.  The tokens of [text.split()], joined, are the text without its
    white space: splitting loses no other character and keeps the order. *)
Lemma split_concat (s : pystr) :
  concat (split s) = List.filter (fun c => negb (isspace c)) s.
Proof. apply (split_from_concat s None). Qed.

Example split_text_B : split text_B = [[116; 119; 111]; [98]]%N.
Proof. reflexivity. Qed.

Example replace_twice :
  replace dot_pdf [] [97; 46; 112; 100; 102; 46; 112; 100; 102; 46; 98]%N = [97; 46; 98]%N.
Proof. reflexivity. Qed.

(** ** Invariants of the store *)

Section Preservation.

Variable I : World -> Prop.

Lemma preserves_ret {A} (a : A) : preserves I (ret a).
Proof. intros w Hw. exact Hw. Qed.

Lemma preserves_raise {A} e : preserves I (@raise A e).
Proof. intros w Hw. exact Hw. Qed.

Lemma preserves_gets {A} (f : World -> A) : preserves I (gets f).
Proof. intros w Hw. exact Hw. Qed.

Lemma preserves_modify f : (forall w, I w -> I (f w)) -> preserves I (modify f).
Proof. intros Hf w Hw. apply Hf. exact Hw. Qed.

Lemma preserves_bind {A B} (m : M A) (k : A -> M B) :
  preserves I m -> (forall a, preserves I (k a)) -> preserves I (bind m k).
Proof.
  intros Hm Hk w Hw. unfold bind. specialize (Hm w Hw).
  destruct (m w) as [[a|e] w1]; cbn [snd] in *.
  - apply Hk. exact Hm.
  - exact Hm.
Qed.

Lemma preserves_try_except_finally {A} (body : M A) handler fin :
  preserves I body -> (forall e, preserves I (handler e)) -> preserves I fin ->
  preserves I (try_except_finally body handler fin).
Proof.
  intros Hb Hh Hf w Hw. unfold try_except_finally. specialize (Hb w Hw).
  destruct (body w) as [[a|e] w1]; cbn [snd] in Hb.
  - specialize (Hf w1 Hb). destruct (fin w1) as [[u|e] w2]; exact Hf.
  - specialize (Hh e w1 Hb). destruct (handler e w1) as [r w2]. cbn [snd] in Hh.
    specialize (Hf w2 Hh). destruct (fin w2) as [[u|e'] w3]; exact Hf.
Qed.

End Preservation.

Lemma well_stored_ext w w' :
  session_state w' = session_state w -> well_stored w -> well_stored w'.
Proof. unfold well_stored, stored. intros ->. auto. Qed.

Lemma preserves_same_store f :
  (forall w, session_state (f w) = session_state w) -> preserves well_stored (modify f).
Proof. intros Hf. apply preserves_modify. intros w. apply well_stored_ext, Hf. Qed.

Ltac preserve :=
  repeat first
    [ apply preserves_ret | apply preserves_raise | apply preserves_gets
    | apply preserves_same_store; intros; reflexivity
    | apply preserves_bind; [|intros]
    | match goal with
      | |- preserves _ (match ?x with _ => _ end) => destruct x
      end ].

Lemma load_model_well_stored c : preserves well_stored (load_model c).
Proof. unfold load_model, cache_resource, load_model_body. preserve. Qed.

Lemma main_init_well_stored : preserves well_stored main_init.
Proof.
  intros w Hw. rewrite main_init_run. cbn [snd].
  destruct (well_stored_initialised w Hw) as [[Hr Ht]|(text & t & Hr & Ht)];
    unfold well_stored, stored; cbn [session_state set_session_state].
  - left. rewrite Hr, Ht. auto.
  - right. exists text, t. auto.
Qed.

Lemma store_result_well_stored text t :
  preserves well_stored
    (session_state_set "ocr_result" (PStr text) ;; session_state_set "ocr_time" (PFloat t)).
Proof.
  intros w _. right. exists text, t. cbn. split.
  - rewrite lookup_insert_ne by done. apply lookup_insert_eq.
  - apply lookup_insert_eq.
Qed.

Lemma main_convert_well_stored env h b : preserves well_stored (main_convert env h b).
Proof.
  unfold main_convert, NamedTemporaryFile_write, time_time, tick.
  apply preserves_bind; [preserve|intros start_time].
  apply preserves_bind; [preserve|intros p].
  apply preserves_try_except_finally.
  - unfold process_pdf, time_time, tick.
    apply preserves_bind; [preserve|intros text].
    apply preserves_bind; [preserve|intros now].
    apply store_result_well_stored.
  - intros e. unfold emit. preserve.
  - unfold cleanup, os_path_exists, os_remove, tick. preserve.
Qed.

Lemma main_display_well_stored f b : preserves well_stored (main_display f b).
Proof.
  intros w Hw. destruct (main_display_frame f b w) as [pg Hpg]. rewrite Hpg.
  revert Hw. apply well_stored_ext. reflexivity.
Qed.

Lemma main_well_stored env : preserves well_stored (main env).
Proof.
  unfold main, main_page, main_document, emit.
  apply preserves_bind; [preserve|intros _].
  apply preserves_bind; [preserve|intros _].
  apply preserves_bind; [apply load_model_well_stored|intros converter].
  apply preserves_bind; [preserve|intros _].
  apply preserves_bind; [preserve|intros _].
  apply preserves_bind; [apply main_init_well_stored|intros _].
  apply preserves_bind.
  - destruct (uploaded_file env) as [f|]; [|preserve].
    apply preserves_bind; [preserve|intros _].
    apply preserves_bind; [preserve|intros _].
    apply preserves_bind; [|intros _; apply main_display_well_stored].
    destruct (button env); [apply main_convert_well_stored|preserve].
  - intros _. preserve.
Qed.

Lemma run_script_well_stored env w : well_stored w -> well_stored (snd (run_script env w)).
Proof.
  intros Hw. unfold run_script. apply main_well_stored.
  revert Hw. apply well_stored_ext. reflexivity.
Qed.

Lemma run_session_well_stored envs :
  forall w, well_stored w -> well_stored (run_session envs w).
Proof.
  induction envs as [|env rest IH]; intros w Hw; cbn [run_session].
  - exact Hw.
  - apply IH, run_script_well_stored, Hw.
Qed.

Lemma well_stored_paired w : well_stored w -> paired w.
Proof.
  unfold well_stored, paired, stored.
  intros [[Hr Ht]|(text & t & Hr & Ht)].
  - rewrite Hr, Ht. tauto.
  - rewrite Hr, Ht. cbn. split; discriminate.
Qed.

Lemma initial_world_well_stored : well_stored initial_world.
Proof. left. split; reflexivity. Qed.

(** ** The loader, called again and again *)

Lemma load_model_calls_cached cs w h :
  resource_cache w = Some h ->
  load_model_calls cs w = (List.repeat (Ok h) (length cs), w).
Proof.
  intros Hc. induction cs as [|c rest IH]; cbn [load_model_calls length List.repeat].
  - reflexivity.
  - rewrite (load_model_cached c w h Hc). rewrite IH. reflexivity.
Qed.

Lemma repeat_lookup {A} (x : A) n i y :
  List.repeat x n !! i = Some y -> y = x /\ (i < n)%nat.
Proof.
  revert i. induction n as [|n IH]; intros i; cbn [List.repeat].
  - destruct i; discriminate.
  - destruct i as [|i]; cbn.
    + intros [= <-]. split; [reflexivity|lia].
    + intros H. destruct (IH i H). split; [assumption|lia].
Qed.

Lemma lookup_repeat {A} (x : A) n i : (i < n)%nat -> List.repeat x n !! i = Some x.
Proof.
  revert i. induction n as [|n IH]; intros i Hi; [lia|].
  destruct i as [|i]; cbn; [reflexivity|]. apply IH. lia.
Qed.

Lemma raise_count_repeat_ok (h : Handle) n : raise_count (List.repeat (Ok h) n) = O.
Proof. unfold raise_count. induction n; cbn; auto. Qed.

(** * The claims *)

(** ** C1: what the stored timing measures *)

(** C1, as amended.  For every conversion that succeeds, the stored
    [ocr_time] is the wall-clock time from the click to the return of the
    engine call: it includes creating and writing the temporary file
    ([d_tmp]) and the engine call ([d_engine]), and it excludes the
    deletion of the file, whatever [os.remove] takes or does. *)
Theorem elapsed_time_spans_tempfile_and_engine env w h f text :
  loaded_handle env w = Some h ->
  uploaded_file env = Some f -> button env = true ->
  create_error env = None -> write_error env = None ->
  converter_call env h (getvalue f) = Ok text ->
  session_state (snd (run_script env w)) !! "ocr_time"
  = Some (PFloat (d_tmp env + d_engine env)).
Proof.
  intros Hl Hu Hb Hc Hw He.
  destruct (run_script_convert_frame env w h f Hl Hu Hb Hc Hw) as [pg ->].
  unfold converted_world. world_simpl. rewrite He. apply lookup_insert_eq.
Qed.

Lemma elapsed_time_spans_tempfile_and_engine_witness :
  session_state (snd (run_script (sample_env (Some doc_A) true) initial_world))
    !! "ocr_time" = Some (PFloat (5 + 7)).
Proof.
  apply (elapsed_time_spans_tempfile_and_engine
           (sample_env (Some doc_A) true) initial_world 0%nat doc_A text_A);
    reflexivity.
Defined.

(** C1 as stated fails: with 5 ticks for the temporary file and 7 for the
    engine, the stored timing is 12, not the 7 of the engine call. *)
Lemma elapsed_time_not_engine_only :
  let env := sample_env (Some doc_A) true in
  let w' := snd (run_script env initial_world) in
  d_tmp env = 5 /\ d_engine env = 7
  /\ session_state w' !! "ocr_time" = Some (PFloat 12)
  /\ session_state w' !! "ocr_time" <> Some (PFloat (d_engine env)).
Proof. vm_compute. repeat split; congruence. Qed.

(** ** C2: an upload and the stored result *)

(** C2, as amended.  An upload does not clear the store: on a run with a
    document uploaded and the button not clicked, the stored text and
    timing stay as they are, and the stored text is shown next to the
    uploaded document, whichever document it was produced from. *)
Theorem upload_keeps_stored_result env w h f text t :
  loaded_handle env w = Some h ->
  uploaded_file env = Some f -> button env = false ->
  session_state w !! "ocr_result" = Some (PStr text) ->
  session_state w !! "ocr_time" = Some (PFloat t) ->
  let w' := snd (run_script env w) in
  fst (run_script env w) = Ok tt
  /\ session_state w' = session_state w
  /\ page w' = document_page f ++ shown f (getvalue f) text t
               ++ [Static "---"; Static "footer"]
  /\ In (PdfIframe (getvalue f)) (page w')
  /\ In (Markdown (PStr text)) (page w').
Proof.
  intros Hl Hu Hb Hr Ht w'. subst w'.
  rewrite (run_script_rerender env w h f text t Hl Hu Hb Hr Ht).
  cbn [fst snd]. unfold document_world. world_simpl.
  rewrite (initialised_full _ _ _ Hr Ht).
  repeat split; try reflexivity.
  - apply in_or_app. right. apply in_or_app. left. unfold shown. cbn. tauto.
  - apply in_or_app. right. apply in_or_app. left. unfold shown. cbn. tauto.
Qed.

Lemma upload_keeps_stored_result_witness :
  let w := snd (run_script (sample_env (Some doc_A) true) initial_world) in
  let w' := snd (run_script (sample_env (Some doc_B) false) w) in
  session_state w' = session_state w
  /\ In (PdfIframe (getvalue doc_B)) (page w')
  /\ In (Markdown (PStr text_A)) (page w').
Proof.
  intros w w'.
  destruct (upload_keeps_stored_result (sample_env (Some doc_B) false) w 0%nat
              doc_B text_A 12 eq_refl eq_refl eq_refl eq_refl eq_refl)
    as (_ & Hs & _ & Hpdf & Hmd).
  split; [exact Hs|]. split; [exact Hpdf|exact Hmd].
Defined.

(** C2 as stated fails: document A is converted, then document B is
    uploaded and not converted; the store still holds A's text, and the
    page shows it next to B, for which the engine would return another
    text. *)
Lemma stale_result_shown_with_new_upload :
  let w1 := snd (run_script (sample_env (Some doc_A) true) initial_world) in
  let w2 := snd (run_script (sample_env (Some doc_B) false) w1) in
  stored "ocr_result" w2 = PStr text_A
  /\ In (PdfIframe (getvalue doc_B)) (page w2)
  /\ In (Markdown (PStr text_A)) (page w2)
  /\ sample_engine 0%nat (getvalue doc_B) = Ok text_B
  /\ text_A <> text_B.
Proof. vm_compute. repeat split; try tauto; congruence. Qed.

(** ** C3: the temporary file after a conversion attempt *)

(** C3, as amended.  For every conversion attempt whose temporary file
    was created and written, and whatever the engine does with it (return
    or raise), [os.remove] is reached; when it does not raise, the file is
    gone after the attempt and no other file is touched. *)
Theorem tempfile_removed_when_remove_succeeds env w h f :
  loaded_handle env w = Some h ->
  uploaded_file env = Some f -> button env = true ->
  create_error env = None -> write_error env = None ->
  remove_error env = None ->
  fs (snd (run_script env w)) = delete (temp_path env) (fs w)
  /\ fs (snd (run_script env w)) !! temp_path env = None.
Proof.
  intros Hl Hu Hb Hc Hw Hrm.
  assert (Hfs : fs (snd (run_script env w)) = delete (temp_path env) (fs w)).
  { destruct (run_script_convert_frame env w h f Hl Hu Hb Hc Hw) as [pg ->].
    unfold converted_world. world_simpl. rewrite Hrm. reflexivity. }
  split; [exact Hfs|]. rewrite Hfs. apply lookup_delete_eq.
Qed.

Lemma tempfile_removed_when_remove_succeeds_witness :
  fs (snd (run_script (failing_engine_env (Some doc_A)) initial_world))
    !! temp_path (failing_engine_env (Some doc_A)) = None.
Proof.
  apply (tempfile_removed_when_remove_succeeds
           (failing_engine_env (Some doc_A)) initial_world 0%nat doc_A);
    reflexivity.
Defined.

(** C3 as stated fails: when [os.remove] raises, the temporary file is
    still there after the attempt. *)
Lemma tempfile_left_when_remove_fails :
  fs (snd (run_script failing_remove_env initial_world)) !! temp_path failing_remove_env
  = Some (getvalue doc_A).
Proof. vm_compute. reflexivity. Qed.

(** ** C4: a deletion that fails *)

(** C4, as amended.  When the engine call succeeded and [os.remove] then
    raises, the exception leaves [main]; the text and its timing were
    stored before and stay stored; that run shows nothing of the result
    (the page ends with the file's name and size), and the next run with a
    document uploaded shows it. *)
Theorem remove_failure_raises_after_storing env w h f text e' :
  loaded_handle env w = Some h ->
  uploaded_file env = Some f -> button env = true ->
  create_error env = None -> write_error env = None ->
  converter_call env h (getvalue f) = Ok text ->
  remove_error env = Some e' ->
  let w' := snd (run_script env w) in
  fst (run_script env w) = Raise e'
  /\ session_state w' !! "ocr_result" = Some (PStr text)
  /\ session_state w' !! "ocr_time" = Some (PFloat (d_tmp env + d_engine env))
  /\ page w' = document_page f
  /\ forall env2 f2,
       uploaded_file env2 = Some f2 -> button env2 = false ->
       fst (run_script env2 w') = Ok tt
       /\ page (snd (run_script env2 w'))
          = document_page f2
            ++ shown f2 (getvalue f2) text (d_tmp env + d_engine env)
            ++ [Static "---"; Static "footer"].
Proof.
  intros Hl Hu Hb Hc Hw He Hrm w'. subst w'.
  rewrite (run_script_convert env w h f Hl Hu Hb Hc Hw). rewrite Hrm.
  cbn [fst snd].
  assert (Hr : session_state (converted_world env h f w) !! "ocr_result"
               = Some (PStr text)).
  { unfold converted_world. world_simpl. rewrite He.
    rewrite lookup_insert_ne by done. apply lookup_insert_eq. }
  assert (Ht : session_state (converted_world env h f w) !! "ocr_time"
               = Some (PFloat (d_tmp env + d_engine env))).
  { unfold converted_world. world_simpl. rewrite He. apply lookup_insert_eq. }
  split; [reflexivity|]. split; [exact Hr|]. split; [exact Ht|]. split.
  { unfold converted_world. world_simpl. rewrite He. reflexivity. }
  intros env2 f2 Hu2 Hb2.
  assert (Hl2 : loaded_handle env2 (converted_world env h f w) = Some h).
  { unfold loaded_handle, converted_world. cbn [resource_cache].
    rewrite (document_world_cache env w h f Hl). reflexivity. }
  rewrite (run_script_rerender env2 _ h f2 text _ Hl2 Hu2 Hb2 Hr Ht).
  split; reflexivity.
Qed.

Lemma remove_failure_raises_after_storing_witness :
  fst (run_script failing_remove_env initial_world) = Raise remove_failure
  /\ session_state (snd (run_script failing_remove_env initial_world)) !! "ocr_result"
     = Some (PStr text_A)
  /\ page (snd (run_script failing_remove_env initial_world)) = document_page doc_A.
Proof.
  destruct (remove_failure_raises_after_storing failing_remove_env initial_world 0%nat
              doc_A text_A remove_failure eq_refl eq_refl eq_refl eq_refl eq_refl
              eq_refl eq_refl)
    as (Hraise & Hr & _ & Hpg & _).
  split; [exact Hraise|]. split; [exact Hr|exact Hpg].
Defined.

(** C4 as stated fails: the engine call succeeds, [os.remove] raises, and
    the run ends with that exception and without the result on the page,
    although the result is stored. *)
Lemma remove_failure_hides_result :
  fst (run_script failing_remove_env initial_world) = Raise remove_failure
  /\ ~ In (Markdown (PStr text_A)) (page (snd (run_script failing_remove_env initial_world)))
  /\ stored "ocr_result" (snd (run_script failing_remove_env initial_world)) = PStr text_A.
Proof.
  vm_compute. split; [reflexivity|]. split; [|reflexivity].
  intros H. repeat (destruct H as [H|H]; [discriminate H|]). exact H.
Qed.

(** ** C5: the loader called [N] times *)

(** C5, as amended.  For every sequence of calls of the loader in one
    process: once a call has returned a handle, that handle is the cached
    one and every later call returns it; a construction that raises is
    not cached, so each call that raised has run the construction, and
    beyond those at most one construction (the one that completed) ever
    runs. *)
Theorem load_model_caches_first_success cs :
  forall w,
    let rs := fst (load_model_calls cs w) in
    let w' := snd (load_model_calls cs w) in
    (forall i h, rs !! i = Some (Ok h) ->
       resource_cache w' = Some h
       /\ forall j, (i <= j < length cs)%nat -> rs !! j = Some (Ok h))
    /\ (constructions w + raise_count rs <= constructions w')%nat
    /\ (constructions w' <= constructions w + raise_count rs + 1)%nat.
Proof.
  induction cs as [|c rest IH]; intros w; cbn zeta.
  - cbn. split; [intros i h H; destruct i; discriminate|lia].
  - destruct (resource_cache w) as [h0|] eqn:Hc.
    { rewrite (load_model_calls_cached (c :: rest) w h0 Hc). cbn [fst snd].
      rewrite raise_count_repeat_ok. split; [|lia].
      intros i h Hi. apply repeat_lookup in Hi. destruct Hi as [[= ->] _].
      split; [exact Hc|]. intros j Hj. apply lookup_repeat. lia. }
    cbn [load_model_calls]. destruct c as [e|].
    + rewrite (load_model_fails e w Hc).
      specialize (IH (set_constructions (S (constructions w)) w)). cbn zeta in IH.
      destruct (load_model_calls rest (set_constructions (S (constructions w)) w))
        as [rs w'] eqn:Hrest.
      cbn [fst snd] in *. destruct IH as (IHret & IHlow & IHhigh). split.
      * intros i h Hi. destruct i as [|i]; [discriminate|]. cbn in Hi.
        destruct (IHret i h Hi) as [Hcache Hlater]. split; [exact Hcache|].
        intros j Hj. destruct j as [|j]; [lia|]. cbn. apply Hlater. cbn in Hj. lia.
      * unfold raise_count in *. cbn in *. lia.
    + rewrite (load_model_builds w Hc).
      rewrite (load_model_calls_cached rest
                 (set_resource_cache (Some (constructions w))
                    (set_constructions (S (constructions w)) w))
                 (constructions w) eq_refl).
      cbn [fst snd].
      change (Ok (constructions w) :: List.repeat (Ok (constructions w)) (length rest))
        with (List.repeat (@Ok Handle (constructions w)) (S (length rest))).
      rewrite raise_count_repeat_ok. split.
      * intros i h Hi.
        assert (h = constructions w) as ->.
        { apply repeat_lookup in Hi. destruct Hi as [[= ->] _]. reflexivity. }
        split; [reflexivity|]. intros j Hj. apply lookup_repeat. cbn in Hj. lia.
      * cbn [constructions set_resource_cache set_constructions]. lia.
Qed.

Lemma load_model_caches_first_success_witness :
  let cs := [Some construct_failure; None; None; Some construct_failure] in
  resource_cache (snd (load_model_calls cs initial_world)) = Some 1%nat
  /\ fst (load_model_calls cs initial_world) !! 3%nat = Some (Ok 1%nat).
Proof.
  intros cs.
  destruct (load_model_caches_first_success cs initial_world) as [Hret _].
  destruct (Hret 1%nat 1%nat eq_refl) as [Hcache Hlater].
  split; [exact Hcache|]. apply Hlater. cbn. lia.
Defined.

(** C5 as stated fails: when the construction raises, nothing is cached;
    two calls run it twice and the second call returns no handle. *)
Lemma failed_construction_runs_again :
  let cs := [Some construct_failure; Some construct_failure] in
  fst (load_model_calls cs initial_world)
  = [Raise construct_failure; Raise construct_failure]
  /\ constructions (snd (load_model_calls cs initial_world)) = 2%nat
  /\ ~ (constructions (snd (load_model_calls cs initial_world)) <= 1)%nat.
Proof. vm_compute. repeat split. lia. Qed.

(** ** C6: an engine failure stays with its document *)

(** C6.  When the engine raises on document A, the error is put on the
    page, the exception does not leave [main] ([main] returns unless
    [os.remove] itself raises), the store and the cached handle are as
    before; a following conversion of document B that succeeds uses the
    same handle without building another engine, stores B's text and
    shows B's text and no other next to B. *)
Theorem engine_failure_isolated envA envB w h fA fB e textB :
  well_stored w ->
  loaded_handle envA w = Some h ->
  uploaded_file envA = Some fA -> button envA = true ->
  create_error envA = None -> write_error envA = None ->
  converter_call envA h (getvalue fA) = Raise e ->
  uploaded_file envB = Some fB -> button envB = true ->
  create_error envB = None -> write_error envB = None -> remove_error envB = None ->
  converter_call envB h (getvalue fB) = Ok textB ->
  let wA := snd (run_script envA w) in
  let wB := snd (run_script envB wA) in
  In (Error (error_caption ++ exn_str e)) (page wA)
  /\ (remove_error envA = None -> fst (run_script envA w) = Ok tt)
  /\ stored "ocr_result" wA = stored "ocr_result" w
  /\ stored "ocr_time" wA = stored "ocr_time" w
  /\ resource_cache wA = Some h
  /\ loaded_handle envB wA = Some h
  /\ fst (run_script envB wA) = Ok tt
  /\ resource_cache wB = Some h
  /\ constructions wB = constructions wA
  /\ stored "ocr_result" wB = PStr textB
  /\ In (PdfIframe (getvalue fB)) (page wB)
  /\ In (Markdown (PStr textB)) (page wB)
  /\ (forall v, In (Markdown v) (page wB) -> v = PStr textB).
Proof.
  intros Hws Hl Hu Hb Hc Hw He HuB HbB HcB HwB HrmB HeB wA wB.
  assert (HA : exists pg, wA = set_page (page (converted_world envA h fA w) ++ pg)
                                 (converted_world envA h fA w)).
  { apply run_script_convert_frame; assumption. }
  destruct HA as [pg HA].
  assert (HssA : session_state wA = initialised (session_state w)).
  { rewrite HA. unfold converted_world. world_simpl. rewrite He. reflexivity. }
  assert (HcA : resource_cache wA = Some h).
  { rewrite HA. unfold converted_world. world_simpl.
    apply (document_world_cache envA w h fA Hl). }
  assert (HlB : loaded_handle envB wA = Some h).
  { unfold loaded_handle. rewrite HcA. reflexivity. }
  assert (HB : run_script envB wA
               = (Ok tt,
                  set_page (page (converted_world envB h fB wA)
                            ++ shown fB (getvalue fB) textB (d_tmp envB + d_engine envB)
                            ++ [Static "---"; Static "footer"])
                    (converted_world envB h fB wA))).
  { rewrite (run_script_convert envB wA h fB HlB HuB HbB HcB HwB). rewrite HrmB.
    apply footer_text; unfold converted_world; world_simpl; rewrite HeB.
    - rewrite lookup_insert_ne by done. apply lookup_insert_eq.
    - apply lookup_insert_eq. }
  assert (HpB : page (converted_world envB h fB wA) = document_page fB).
  { unfold converted_world. world_simpl. rewrite HeB. reflexivity. }
  split.
  { rewrite HA. cbn [page set_page]. apply in_or_app. left.
    unfold converted_world. cbn [page]. rewrite He.
    apply in_or_app. right. left. reflexivity. }
  split.
  { intros HrmA. rewrite (run_script_convert envA w h fA Hl Hu Hb Hc Hw). rewrite HrmA.
    destruct (footer_well_stored fA (getvalue fA) (converted_world envA h fA w)
                (session_state w)) as [pg' Hpg'].
    - destruct w; exact Hws.
    - unfold converted_world. world_simpl. rewrite He. reflexivity.
    - rewrite Hpg'. reflexivity. }
  split; [apply stored_initialised; auto|].
  split; [apply stored_initialised; auto|].
  split; [exact HcA|]. split; [exact HlB|].
  subst wB. rewrite HB. cbn [fst snd]. split; [reflexivity|].
  split.
  { unfold converted_world. world_simpl. unfold document_world, after_load. world_simpl.
    rewrite HcA. exact HcA. }
  split.
  { unfold converted_world. world_simpl. unfold document_world, after_load. world_simpl.
    rewrite HcA. reflexivity. }
  split.
  { unfold stored, converted_world. world_simpl. rewrite HeB.
    rewrite lookup_insert_ne by done. rewrite lookup_insert_eq. reflexivity. }
  cbn [page set_page]. rewrite HpB.
  split; [cbn; tauto|]. split; [cbn; tauto|].
  intros v Hv. apply in_app_or in Hv. destruct Hv as [Hv|Hv].
  { repeat (destruct Hv as [Hv|Hv]; [discriminate Hv|]). destruct Hv. }
  apply in_app_or in Hv. destruct Hv as [Hv|Hv].
  - apply (in_shown_markdown _ _ _ _ _ Hv).
  - repeat (destruct Hv as [Hv|Hv]; [discriminate Hv|]). destruct Hv.
Qed.

Lemma engine_failure_isolated_witness :
  let wA := snd (run_script (failing_engine_env (Some doc_A)) initial_world) in
  let wB := snd (run_script (sample_env (Some doc_B) true) wA) in
  In (Error (error_caption ++ exn_str engine_failure)) (page wA)
  /\ fst (run_script (failing_engine_env (Some doc_A)) initial_world) = Ok tt
  /\ resource_cache wA = Some 0%nat
  /\ stored "ocr_result" wB = PStr text_B
  /\ In (Markdown (PStr text_B)) (page wB).
Proof.
  intros wA wB.
  destruct (engine_failure_isolated (failing_engine_env (Some doc_A))
              (sample_env (Some doc_B) true) initial_world 0%nat doc_A doc_B
              engine_failure text_B
              (or_introl (conj eq_refl eq_refl))
              eq_refl eq_refl eq_refl eq_refl eq_refl eq_refl
              eq_refl eq_refl eq_refl eq_refl eq_refl eq_refl)
    as (Herr & Hok & _ & _ & Hcache & _ & _ & _ & _ & Hstored & _ & Hmd & _).
  split; [exact Herr|]. split; [exact (Hok eq_refl)|]. split; [exact Hcache|].
  split; [exact Hstored|exact Hmd].
Defined.

(** ** C7: a failed conversion and the store *)

(** C7, as amended.  A conversion attempt that ends in an engine error
    stores nothing: the stored text and timing are what they were, so the
    session is in the state it was in before the attempt -
    [DocumentUploaded] when nothing was stored, and otherwise still
    [Converted] with the result stored earlier - and the error is put on
    the page. *)
Theorem engine_failure_keeps_store env w h f e :
  loaded_handle env w = Some h ->
  uploaded_file env = Some f -> button env = true ->
  create_error env = None -> write_error env = None ->
  converter_call env h (getvalue f) = Raise e ->
  let w' := snd (run_script env w) in
  stored "ocr_result" w' = stored "ocr_result" w
  /\ stored "ocr_time" w' = stored "ocr_time" w
  /\ session_phase env w' = session_phase env w
  /\ (stored "ocr_result" w = PNone -> session_phase env w' = DocumentUploaded)
  /\ In (Error (error_caption ++ exn_str e)) (page w').
Proof.
  intros Hl Hu Hb Hc Hw He w'. subst w'.
  destruct (run_script_convert_frame env w h f Hl Hu Hb Hc Hw) as [pg Hpg].
  rewrite Hpg.
  assert (Hss : session_state (set_page (page (converted_world env h f w) ++ pg)
                                 (converted_world env h f w))
                = initialised (session_state w)).
  { unfold converted_world. world_simpl. rewrite He.
    unfold document_world. reflexivity. }
  assert (Hr := stored_initialised "ocr_result" _ _ (or_introl eq_refl) Hss).
  assert (Ht := stored_initialised "ocr_time" _ _ (or_intror eq_refl) Hss).
  fold (stored "ocr_result" w) in Hr. fold (stored "ocr_time" w) in Ht.
  assert (Hp : session_phase env
                 (set_page (page (converted_world env h f w) ++ pg)
                    (converted_world env h f w)) = session_phase env w).
  { unfold session_phase. rewrite Hr. reflexivity. }
  split; [exact Hr|]. split; [exact Ht|]. split; [exact Hp|]. split.
  - intros Hn. rewrite Hp. unfold session_phase. rewrite Hu, Hn. reflexivity.
  - cbn [page set_page]. apply in_or_app. left.
    unfold converted_world. cbn [page]. rewrite He.
    apply in_or_app. right. left. reflexivity.
Qed.

Lemma engine_failure_keeps_store_witness :
  let env := failing_engine_env (Some doc_A) in
  session_phase env (snd (run_script env initial_world)) = DocumentUploaded
  /\ In (Error (error_caption ++ exn_str engine_failure))
        (page (snd (run_script env initial_world))).
Proof.
  intros env.
  destruct (engine_failure_keeps_store env initial_world 0%nat doc_A engine_failure
              eq_refl eq_refl eq_refl eq_refl eq_refl eq_refl)
    as (_ & _ & _ & Hphase & Herr).
  split; [exact (Hphase eq_refl)|exact Herr].
Defined.

(** C7 as stated fails: after a conversion of document A that succeeded, a
    second attempt on which the engine raises leaves the session
    [Converted], with A's earlier result stored and shown below the
    error; it does not return to [DocumentUploaded]. *)
Lemma engine_failure_keeps_old_result :
  let w1 := snd (run_script (sample_env (Some doc_A) true) initial_world) in
  let env := failing_engine_env (Some doc_A) in
  let w2 := snd (run_script env w1) in
  converter_call env 0%nat (getvalue doc_A) = Raise engine_failure
  /\ session_phase env w2 = Converted (PStr text_A)
  /\ session_phase env w2 <> DocumentUploaded
  /\ In (Error (error_caption ++ exn_str engine_failure)) (page w2)
  /\ In (Markdown (PStr text_A)) (page w2).
Proof. vm_compute. repeat split; try tauto; congruence. Qed.

(** ** C8: the two exports *)

(** C8.  For every stored result text, on every run that renders the page
    for an uploaded file, the [.md] and the [.txt] download buttons are
    both there and both carry the stored text as their data; no download
    button carries anything else. *)
Theorem exports_identical env w w' f text :
  run_script env w = (Ok tt, w') ->
  uploaded_file env = Some f ->
  session_state w' !! "ocr_result" = Some (PStr text) ->
  In (DownloadButton (PStr text) (replace dot_pdf [] (name f) ++ ocr_md) "text/markdown")
     (page w')
  /\ In (DownloadButton (PStr text) (replace dot_pdf [] (name f) ++ ocr_txt) "text/plain")
        (page w')
  /\ forall data file_name mime,
       In (DownloadButton data file_name mime) (page w') -> data = PStr text.
Proof.
  intros Hrun Hu Hr.
  destruct (run_script_ok env w w' f text Hrun Hu Hr) as (errs & t & Hpg & Herrs & _).
  rewrite Hpg. split; [|split].
  - apply in_or_app. right. apply in_or_app. right. apply in_or_app. left.
    unfold shown. cbn. tauto.
  - apply in_or_app. right. apply in_or_app. right. apply in_or_app. left.
    unfold shown. cbn. tauto.
  - intros data file_name mime Hin.
    apply (in_page_cases (fun x => exists d n m, x = DownloadButton d n m) f errs _ Herrs)
      in Hin.
    + unfold shown in Hin.
      repeat (destruct Hin as [Hin|Hin];
              [try discriminate Hin; (inversion Hin; reflexivity)|]).
      destruct Hin.
    + intros x Hx (d & n & m & ->).
      repeat (destruct Hx as [Hx|Hx]; [discriminate Hx|]). destruct Hx.
    + intros m (d & n & m' & [=]).
    + intros tag (d & n & m' & [=]).
    + eauto.
Qed.

Lemma exports_identical_witness :
  let w' := snd (run_script (sample_env (Some doc_A) true) initial_world) in
  In (DownloadButton (PStr text_A) [97; 95; 111; 99; 114; 46; 109; 100]%N "text/markdown")
     (page w')
  /\ In (DownloadButton (PStr text_A) [97; 95; 111; 99; 114; 46; 116; 120; 116]%N
           "text/plain") (page w').
Proof.
  intros w'.
  assert (Hrun : run_script (sample_env (Some doc_A) true) initial_world = (Ok tt, w'))
    by (vm_compute; reflexivity).
  assert (Hr : session_state w' !! "ocr_result" = Some (PStr text_A))
    by (vm_compute; reflexivity).
  destruct (exports_identical (sample_env (Some doc_A) true) initial_world w' doc_A text_A
              Hrun eq_refl Hr) as (Hmd & Htxt & _).
  split; [exact Hmd|exact Htxt].
Defined.

(** ** C9: the statistics *)

(** C9.  For every stored result text, on every run that renders the page
    for an uploaded file, the character count shown is the length of the
    text and the word count shown is the number of tokens of
    [text.split()], which is the number of white-space separated tokens
    of the text. *)
Theorem statistics_from_stored_text env w w' f text :
  run_script env w = (Ok tt, w') ->
  uploaded_file env = Some f ->
  session_state w' !! "ocr_result" = Some (PStr text) ->
  In (MetricChars (length text)) (page w')
  /\ In (MetricWords (length (split text))) (page w')
  /\ length (split text) = whitespace_token_count text
  /\ (forall n, In (MetricChars n) (page w') -> n = length text)
  /\ (forall n, In (MetricWords n) (page w') -> n = whitespace_token_count text).
Proof.
  intros Hrun Hu Hr.
  destruct (run_script_ok env w w' f text Hrun Hu Hr) as (errs & t & Hpg & Herrs & _).
  rewrite Hpg. split; [|split; [|split; [|split]]].
  - apply in_or_app. right. apply in_or_app. right. apply in_or_app. left.
    unfold shown. cbn. tauto.
  - apply in_or_app. right. apply in_or_app. right. apply in_or_app. left.
    unfold shown. cbn. tauto.
  - apply split_length.
  - intros n Hin.
    apply (in_page_cases (fun x => exists k, x = MetricChars k) f errs _ Herrs) in Hin.
    + unfold shown in Hin.
      repeat (destruct Hin as [Hin|Hin];
              [try discriminate Hin; (inversion Hin; reflexivity)|]).
      destruct Hin.
    + intros x Hx (k & ->).
      repeat (destruct Hx as [Hx|Hx]; [discriminate Hx|]). destruct Hx.
    + intros m (k & [=]).
    + intros tag (k & [=]).
    + eauto.
  - intros n Hin. rewrite <- split_length.
    apply (in_page_cases (fun x => exists k, x = MetricWords k) f errs _ Herrs) in Hin.
    + unfold shown in Hin.
      repeat (destruct Hin as [Hin|Hin];
              [try discriminate Hin; (inversion Hin; reflexivity)|]).
      destruct Hin.
    + intros x Hx (k & ->).
      repeat (destruct Hx as [Hx|Hx]; [discriminate Hx|]). destruct Hx.
    + intros m (k & [=]).
    + intros tag (k & [=]).
    + eauto.
Qed.

Lemma statistics_from_stored_text_witness :
  let w' := snd (run_script (sample_env (Some doc_B) true) initial_world) in
  In (MetricChars 7) (page w') /\ In (MetricWords 2) (page w').
Proof.
  intros w'.
  assert (Hrun : run_script (sample_env (Some doc_B) true) initial_world = (Ok tt, w'))
    by (vm_compute; reflexivity).
  assert (Hr : session_state w' !! "ocr_result" = Some (PStr text_B))
    by (vm_compute; reflexivity).
  destruct (statistics_from_stored_text (sample_env (Some doc_B) true) initial_world w'
              doc_B text_B Hrun eq_refl Hr) as (Hchars & Hwords & _).
  split; [exact Hchars|exact Hwords].
Defined.

(** ** C10: the text and its timing go together *)

(** C10.  After every sequence of runs of the script in a session that
    starts empty, whatever the user and the environment do, the stored
    result text is [None] (or not yet there) exactly when the stored
    timing is. *)
Theorem result_and_time_paired envs : paired (run_session envs initial_world).
Proof.
  apply well_stored_paired, run_session_well_stored, initial_world_well_stored.
Qed.

(** * Further properties of the script *)

(** ** Every way through a run *)

Lemma run_script_construct_fails env w :
  loaded_handle env w = None ->
  exists e,
    construct_error env = Some e
    /\ resource_cache w = None
    /\ run_script env w
       = (Raise e,
          set_constructions (S (constructions w))
            (set_page [Static "title"; Static "subtitle"] w)).
Proof.
  unfold loaded_handle. intros H.
  destruct (resource_cache w) eqn:Hc; [discriminate|].
  destruct (construct_error env) as [e|] eqn:He; [|discriminate].
  exists e. split; [reflexivity|]. split; [reflexivity|].
  unfold run_script, main. destruct w as [c fs0 rc n ss pg].
  do 2 emit_step. unfold bind at 1. rewrite He.
  rewrite load_model_fails by exact Hc. reflexivity.
Qed.

Lemma run_script_no_document env w h :
  loaded_handle env w = Some h -> uploaded_file env = None ->
  run_script env w
  = (Ok tt,
     set_session_state (initialised (session_state w))
       (set_page no_document_page (after_load h w))).
Proof.
  intros Hl Hu. rewrite (run_script_loaded env w h Hl).
  unfold main_page. rewrite Hu.
  unfold after_load. destruct w as [c fs0 rc n ss pg]. world_simpl.
  destruct rc; world_simpl.
  all: do 2 emit_step; unfold bind at 1; rewrite main_init_run; cbv beta iota;
    world_simpl; unfold bind at 1; unfold ret at 1; cbv beta iota;
    emit_step; emit_last; reflexivity.
Qed.

Lemma main_convert_create_fails env h b w e :
  create_error env = Some e ->
  main_convert env h b w = (Raise e, set_clock (clock w + d_tmp env) w).
Proof.
  intros Hc. unfold main_convert, NamedTemporaryFile_write.
  cbv [bind time_time gets tick modify raise]. rewrite Hc. reflexivity.
Qed.

Lemma main_convert_write_fails env h b w e :
  create_error env = None -> write_error env = Some e ->
  main_convert env h b w
  = (Raise e,
     set_fs (<[temp_path env := []]> (fs w)) (set_clock (clock w + d_tmp env) w)).
Proof.
  intros Hc Hw. unfold main_convert, NamedTemporaryFile_write.
  cbv [bind time_time gets tick modify raise]. rewrite Hc, Hw.
  destruct w; reflexivity.
Qed.

Lemma document_world_clock h f w : clock (document_world h f w) = clock w.
Proof. unfold document_world, after_load. destruct (resource_cache w); reflexivity. Qed.

Lemma document_world_fs h f w : fs (document_world h f w) = fs w.
Proof. unfold document_world, after_load. destruct (resource_cache w); reflexivity. Qed.

Lemma run_script_create_fails env w h f e :
  loaded_handle env w = Some h -> uploaded_file env = Some f -> button env = true ->
  create_error env = Some e ->
  run_script env w
  = (Raise e, set_clock (clock w + d_tmp env) (document_world h f w)).
Proof.
  intros Hl Hu Hb Hc. rewrite (run_script_document env w h f Hl Hu). rewrite Hb.
  unfold bind at 1. unfold bind at 1.
  rewrite (main_convert_create_fails env h _ _ e Hc).
  rewrite document_world_clock. reflexivity.
Qed.

Lemma run_script_write_fails env w h f e :
  loaded_handle env w = Some h -> uploaded_file env = Some f -> button env = true ->
  create_error env = None -> write_error env = Some e ->
  run_script env w
  = (Raise e,
     set_fs (<[temp_path env := []]> (fs w))
       (set_clock (clock w + d_tmp env) (document_world h f w))).
Proof.
  intros Hl Hu Hb Hc Hw. rewrite (run_script_document env w h f Hl Hu). rewrite Hb.
  unfold bind at 1. unfold bind at 1.
  rewrite (main_convert_write_fails env h _ _ e Hc Hw).
  rewrite document_world_clock, document_world_fs. reflexivity.
Qed.

Lemma run_script_idle_frame env w h f :
  loaded_handle env w = Some h -> uploaded_file env = Some f -> button env = false ->
  exists pg,
    snd (run_script env w) = set_page (document_page f ++ pg) (document_world h f w).
Proof.
  intros Hl Hu Hb. rewrite (run_script_document env w h f Hl Hu). rewrite Hb.
  unfold bind at 1. unfold bind at 1. unfold ret at 1. cbv beta iota.
  destruct (footer_frame f (getvalue f) (document_world h f w)) as [pg Hpg].
  unfold bind at 1 in Hpg. exists pg. rewrite Hpg. reflexivity.
Qed.

(** The page aside, a run leaves [next_world]. *)
Lemma run_script_next_world env w :
  exists pg, snd (run_script env w) = set_page pg (next_world env w).
Proof.
  unfold next_world.
  destruct (loaded_handle env w) as [h|] eqn:Hl.
  2:{ destruct (run_script_construct_fails env w Hl) as (e & _ & _ & ->).
      eexists. cbn [snd]. destruct w; reflexivity. }
  destruct (uploaded_file env) as [f|] eqn:Hu.
  2:{ rewrite (run_script_no_document env w h Hl Hu). eexists. cbn [snd].
      unfold after_load. destruct w as [c fs0 rc n ss pg]. destruct rc; reflexivity. }
  destruct (button env) eqn:Hb.
  2:{ destruct (run_script_idle_frame env w h f Hl Hu Hb) as [pg ->]. eexists.
      unfold document_world, after_load. destruct w as [c fs0 rc n ss pg0].
      destruct rc; reflexivity. }
  destruct (create_error env) as [e1|] eqn:Hc.
  { rewrite (run_script_create_fails env w h f e1 Hl Hu Hb Hc). eexists. cbn [snd].
    unfold document_world, after_load. destruct w as [c fs0 rc n ss pg0].
    destruct rc; reflexivity. }
  destruct (write_error env) as [e2|] eqn:Hw.
  { rewrite (run_script_write_fails env w h f e2 Hl Hu Hb Hc Hw). eexists. cbn [snd].
    unfold document_world, after_load. destruct w as [c fs0 rc n ss pg0].
    destruct rc; reflexivity. }
  destruct (run_script_convert_frame env w h f Hl Hu Hb Hc Hw) as [pg ->].
  exists (page (converted_world env h f w) ++ pg).
  destruct (converted_world env h f w); reflexivity.
Qed.

Lemma stored_set_page key pg w : stored key (set_page pg w) = stored key w.
Proof. reflexivity. Qed.

Lemma stored_after_init key h w :
  key = "ocr_result" \/ key = "ocr_time" ->
  stored key (set_session_state (initialised (session_state w)) (after_load h w))
  = stored key w.
Proof.
  intros Hk. apply (stored_initialised key (session_state w)); [exact Hk|reflexivity].
Qed.

(** What a run does to the stored text and timing: nothing, or it stores
    the text the engine returned for the uploaded bytes. *)
Lemma run_script_store_cases env w :
  (stored "ocr_result" (snd (run_script env w)) = stored "ocr_result" w
   /\ stored "ocr_time" (snd (run_script env w)) = stored "ocr_time" w)
  \/ (exists h f text,
        loaded_handle env w = Some h /\ uploaded_file env = Some f
        /\ button env = true /\ create_error env = None /\ write_error env = None
        /\ converter_call env h (getvalue f) = Ok text
        /\ session_state (snd (run_script env w))
           = <["ocr_time" := PFloat (d_tmp env + d_engine env)]>
               (<["ocr_result" := PStr text]> (initialised (session_state w)))).
Proof.
  destruct (run_script_next_world env w) as [pg ->].
  rewrite !stored_set_page. unfold next_world.
  destruct (loaded_handle env w) as [h|] eqn:Hl; [|left; split; reflexivity].
  destruct (uploaded_file env) as [f|] eqn:Hu.
  2:{ left. split; apply stored_after_init; auto. }
  destruct (button env) eqn:Hb.
  2:{ left. split; apply stored_after_init; auto. }
  destruct (create_error env) as [e1|] eqn:Hc.
  { left. split; apply (stored_after_init _ h w); auto. }
  destruct (write_error env) as [e2|] eqn:Hw.
  { left. split; apply (stored_after_init _ h w); auto. }
  destruct (converter_call env h (getvalue f)) as [text|e] eqn:He.
  - right. exists h, f, text. repeat (split; [assumption || reflexivity|]).
    unfold converted_world. world_simpl. rewrite He. reflexivity.
  - left. unfold stored, converted_world. world_simpl. rewrite He.
    unfold document_world. world_simpl.
    rewrite initialised_result, initialised_time.
    split; destruct (session_state w !! _); reflexivity.
Qed.

(** X1.  With no file uploaded a run shows the captions and the footer
    only, whatever the button says and whatever is stored: nothing of a
    stored result is shown, no file and not the clock is touched, and the
    stored text and timing stay. *)
Theorem no_document_shows_nothing env w h :
  loaded_handle env w = Some h -> uploaded_file env = None ->
  let w' := snd (run_script env w) in
  fst (run_script env w) = Ok tt
  /\ page w' = no_document_page
  /\ fs w' = fs w /\ clock w' = clock w
  /\ stored "ocr_result" w' = stored "ocr_result" w
  /\ stored "ocr_time" w' = stored "ocr_time" w.
Proof.
  intros Hl Hu w'. subst w'. rewrite (run_script_no_document env w h Hl Hu).
  cbn [fst snd]. split; [reflexivity|]. split; [reflexivity|].
  split; [unfold after_load; destruct (resource_cache w); reflexivity|].
  split; [unfold after_load; destruct (resource_cache w); reflexivity|].
  split; apply (stored_after_init _ h w); auto.
Qed.

Lemma no_document_shows_nothing_witness :
  let w := snd (run_script (sample_env (Some doc_A) true) initial_world) in
  page (snd (run_script (sample_env None true) w)) = no_document_page
  /\ stored "ocr_result" (snd (run_script (sample_env None true) w)) = PStr text_A.
Proof.
  intros w.
  destruct (no_document_shows_nothing (sample_env None true) w 0%nat eq_refl eq_refl)
    as (_ & Hpg & _ & _ & Hr & _).
  split; [exact Hpg|]. rewrite Hr. vm_compute. reflexivity.
Defined.

(** X2.  When the engine is not cached and its construction raises, the
    exception leaves [main] at once: the page has the two captions only,
    the session state is not even initialised, no file is touched and
    nothing is cached, so the next run builds again. *)
Theorem construction_failure_stops_run env w e :
  resource_cache w = None -> construct_error env = Some e ->
  let w' := snd (run_script env w) in
  fst (run_script env w) = Raise e
  /\ page w' = [Static "title"; Static "subtitle"]
  /\ session_state w' = session_state w
  /\ fs w' = fs w
  /\ resource_cache w' = None
  /\ constructions w' = S (constructions w).
Proof.
  intros Hc He w'. subst w'.
  assert (Hl : loaded_handle env w = None).
  { unfold loaded_handle. rewrite Hc, He. reflexivity. }
  destruct (run_script_construct_fails env w Hl) as (e' & He' & _ & ->).
  rewrite He in He'. injection He' as <-. cbn [fst snd].
  repeat split; try reflexivity. exact Hc.
Qed.

Lemma construction_failure_stops_run_witness :
  fst (run_script failing_construct_env initial_world) = Raise construct_failure
  /\ session_state (snd (run_script failing_construct_env initial_world)) = ∅.
Proof.
  destruct (construction_failure_stops_run failing_construct_env initial_world
              construct_failure eq_refl eq_refl) as (Hr & _ & Hss & _).
  split; [exact Hr|exact Hss].
Defined.

(** X3.  When the temporary file cannot be created, the exception leaves
    [main] without an error element on the page (the [try] block is not
    entered); no file exists more than before, the engine is not called,
    and the stored text and timing stay. *)
Theorem tempfile_create_failure_stops_run env w h f e :
  loaded_handle env w = Some h -> uploaded_file env = Some f -> button env = true ->
  create_error env = Some e ->
  let w' := snd (run_script env w) in
  fst (run_script env w) = Raise e
  /\ page w' = document_page f
  /\ fs w' = fs w
  /\ clock w' = clock w + d_tmp env
  /\ stored "ocr_result" w' = stored "ocr_result" w
  /\ stored "ocr_time" w' = stored "ocr_time" w.
Proof.
  intros Hl Hu Hb Hc w'. subst w'.
  rewrite (run_script_create_fails env w h f e Hl Hu Hb Hc). cbn [fst snd].
  split; [reflexivity|]. split; [reflexivity|].
  split; [apply document_world_fs|]. split; [reflexivity|].
  split; apply (stored_after_init _ h w); auto.
Qed.

Lemma tempfile_create_failure_stops_run_witness :
  fst (run_script failing_create_env initial_world) = Raise disk_failure
  /\ page (snd (run_script failing_create_env initial_world)) = document_page doc_A
  /\ fs (snd (run_script failing_create_env initial_world)) = ∅.
Proof.
  destruct (tempfile_create_failure_stops_run failing_create_env initial_world 0%nat
              doc_A disk_failure eq_refl eq_refl eq_refl eq_refl)
    as (Hr & Hpg & Hfs & _).
  split; [exact Hr|]. split; [exact Hpg|exact Hfs].
Defined.

(** X4.  When writing the temporary file raises, the exception leaves
    [main] before the [try] block: no error element is shown, the stored
    text and timing stay, and the file, created with [delete=False], is
    still there after the run. *)
Theorem tempfile_write_failure_leaves_file env w h f e :
  loaded_handle env w = Some h -> uploaded_file env = Some f -> button env = true ->
  create_error env = None -> write_error env = Some e ->
  let w' := snd (run_script env w) in
  fst (run_script env w) = Raise e
  /\ page w' = document_page f
  /\ is_Some (fs w' !! temp_path env)
  /\ stored "ocr_result" w' = stored "ocr_result" w
  /\ stored "ocr_time" w' = stored "ocr_time" w.
Proof.
  intros Hl Hu Hb Hc Hw w'. subst w'.
  rewrite (run_script_write_fails env w h f e Hl Hu Hb Hc Hw). cbn [fst snd].
  split; [reflexivity|]. split; [reflexivity|].
  split; [cbn [fs set_fs]; rewrite lookup_insert_eq; eauto|].
  split; apply (stored_after_init _ h w); auto.
Qed.

Lemma tempfile_write_failure_leaves_file_witness :
  fst (run_script failing_write_env initial_world) = Raise disk_failure
  /\ is_Some (fs (snd (run_script failing_write_env initial_world))
               !! temp_path failing_write_env).
Proof.
  destruct (tempfile_write_failure_leaves_file failing_write_env initial_world 0%nat
              doc_A disk_failure eq_refl eq_refl eq_refl eq_refl eq_refl)
    as (Hr & _ & Hfile & _).
  split; [exact Hr|exact Hfile].
Defined.

Lemma after_load_fs h w : fs (after_load h w) = fs w.
Proof. unfold after_load. destruct (resource_cache w); reflexivity. Qed.

Lemma after_load_clock h w : clock (after_load h w) = clock w.
Proof. unfold after_load. destruct (resource_cache w); reflexivity. Qed.

(** X5.  Whatever happens in a run, no file other than the run's own
    temporary file is created, changed or removed. *)
Theorem run_touches_only_temp_path env w path :
  path <> temp_path env ->
  fs (snd (run_script env w)) !! path = fs w !! path.
Proof.
  intros Hp. destruct (run_script_next_world env w) as [pg ->].
  cbn [fs set_page]. unfold next_world.
  destruct (loaded_handle env w) as [h|]; [|reflexivity].
  destruct (uploaded_file env) as [f|]; [|cbn [fs set_session_state]; rewrite after_load_fs; reflexivity].
  destruct (button env); [|cbn [fs set_session_state]; rewrite after_load_fs; reflexivity].
  destruct (create_error env).
  { cbn [fs set_session_state set_clock]. rewrite after_load_fs. reflexivity. }
  destruct (write_error env).
  { cbn [fs set_fs]. apply lookup_insert_ne. congruence. }
  unfold converted_world. cbn [fs]. destruct (remove_error env).
  - apply lookup_insert_ne. congruence.
  - apply lookup_delete_ne. congruence.
Qed.

Lemma run_touches_only_temp_path_witness :
  fs (snd (run_script failing_remove_env initial_world)) !! "other.pdf"
  = fs initial_world !! "other.pdf".
Proof.
  apply (run_touches_only_temp_path failing_remove_env initial_world "other.pdf").
  vm_compute. discriminate.
Defined.

(** X6.  A run without a click on the button (or without an uploaded
    file) touches no file and takes no time of the temporary file, the
    engine or the deletion: only a click converts. *)
Theorem no_click_no_engine env w :
  button env = false \/ uploaded_file env = None ->
  fs (snd (run_script env w)) = fs w /\ clock (snd (run_script env w)) = clock w.
Proof.
  intros Hidle. destruct (run_script_next_world env w) as [pg ->].
  cbn [fs clock set_page]. unfold next_world.
  destruct (loaded_handle env w) as [h|]; [|split; reflexivity].
  assert (H0 : fs (set_session_state (initialised (session_state w)) (after_load h w)) = fs w
               /\ clock (set_session_state (initialised (session_state w)) (after_load h w))
                  = clock w).
  { cbn [fs clock set_session_state]. rewrite after_load_fs, after_load_clock. auto. }
  destruct (uploaded_file env) as [f|]; [|exact H0].
  destruct (button env); [|exact H0].
  destruct Hidle; discriminate.
Qed.

Lemma no_click_no_engine_witness :
  let w := snd (run_script (sample_env (Some doc_A) true) initial_world) in
  fs (snd (run_script (sample_env (Some doc_B) false) w)) = fs w
  /\ clock (snd (run_script (sample_env (Some doc_B) false) w)) = clock w.
Proof.
  intros w. apply (no_click_no_engine (sample_env (Some doc_B) false) w).
  left. reflexivity.
Defined.

(** X7.  A run changes the stored text or timing only when the button
    was clicked for an uploaded file, the temporary file was written and
    the engine returned; the stored text is then the engine's text for the
    uploaded bytes and the timing the one measured. *)
Theorem store_changes_only_by_conversion env w :
  let w' := snd (run_script env w) in
  stored "ocr_result" w' <> stored "ocr_result" w
  \/ stored "ocr_time" w' <> stored "ocr_time" w ->
  exists h f text,
    loaded_handle env w = Some h /\ uploaded_file env = Some f /\ button env = true
    /\ create_error env = None /\ write_error env = None
    /\ converter_call env h (getvalue f) = Ok text
    /\ stored "ocr_result" w' = PStr text
    /\ stored "ocr_time" w' = PFloat (d_tmp env + d_engine env).
Proof.
  intros w' Hchange. subst w'.
  destruct (run_script_store_cases env w)
    as [[Hr Ht]|(h & f & text & Hl & Hu & Hb & Hc & Hw & He & Hss)].
  - destruct Hchange as [H|H]; contradiction.
  - exists h, f, text. repeat (split; [assumption|]).
    unfold stored. rewrite Hss. split.
    + rewrite lookup_insert_ne by done. rewrite lookup_insert_eq. reflexivity.
    + rewrite lookup_insert_eq. reflexivity.
Qed.

Lemma store_changes_only_by_conversion_witness :
  exists h f text,
    loaded_handle (sample_env (Some doc_A) true) initial_world = Some h
    /\ uploaded_file (sample_env (Some doc_A) true) = Some f
    /\ converter_call (sample_env (Some doc_A) true) h (getvalue f) = Ok text
    /\ stored "ocr_result" (snd (run_script (sample_env (Some doc_A) true) initial_world))
       = PStr text.
Proof.
  destruct (store_changes_only_by_conversion (sample_env (Some doc_A) true) initial_world)
    as (h & f & text & Hl & Hu & _ & _ & _ & He & Hr & _).
  { left. vm_compute. discriminate. }
  exists h, f, text. split; [exact Hl|]. split; [exact Hu|]. split; [exact He|exact Hr].
Defined.

(** X8.  A conversion that succeeds replaces the stored text and
    timing by the new ones, whatever was stored and whether or not the
    deletion raises afterwards, and leaves every other key of the session
    state alone. *)
Theorem conversion_overwrites_store env w h f text :
  loaded_handle env w = Some h ->
  uploaded_file env = Some f -> button env = true ->
  create_error env = None -> write_error env = None ->
  converter_call env h (getvalue f) = Ok text ->
  let w' := snd (run_script env w) in
  stored "ocr_result" w' = PStr text
  /\ stored "ocr_time" w' = PFloat (d_tmp env + d_engine env)
  /\ forall key, key <> "ocr_result" -> key <> "ocr_time" ->
       session_state w' !! key = session_state w !! key.
Proof.
  intros Hl Hu Hb Hc Hw He w'. subst w'.
  destruct (run_script_convert_frame env w h f Hl Hu Hb Hc Hw) as [pg ->].
  unfold stored, converted_world. world_simpl. rewrite He.
  split; [rewrite lookup_insert_ne by done; rewrite lookup_insert_eq; reflexivity|].
  split; [rewrite lookup_insert_eq; reflexivity|].
  intros key Hr Ht. rewrite !lookup_insert_ne by congruence.
  unfold document_world. world_simpl. unfold initialised, setdefault.
  destruct (session_state w !! "ocr_result") eqn:E1.
  - destruct (session_state w !! "ocr_time") eqn:E2; [reflexivity|].
    apply lookup_insert_ne. congruence.
  - destruct (<["ocr_result":=PNone]> (session_state w) !! "ocr_time") eqn:E2.
    + apply lookup_insert_ne. congruence.
    + rewrite !lookup_insert_ne by congruence. reflexivity.
Qed.

Lemma conversion_overwrites_store_witness :
  let w := snd (run_script (sample_env (Some doc_A) true) initial_world) in
  stored "ocr_result" w = PStr text_A
  /\ stored "ocr_result" (snd (run_script (sample_env (Some doc_B) true) w)) = PStr text_B.
Proof.
  intros w. split; [vm_compute; reflexivity|].
  destruct (conversion_overwrites_store (sample_env (Some doc_B) true) w 0%nat doc_B text_B
              eq_refl eq_refl eq_refl eq_refl eq_refl eq_refl) as (Hr & _).
  exact Hr.
Defined.

(** *** Where a stored text comes from *)

Lemma run_session_store_source envs :
  forall w text,
    stored "ocr_result" (run_session envs w) = PStr text ->
    stored "ocr_result" w = PStr text
    \/ exists env h f,
         In env envs /\ uploaded_file env = Some f /\ button env = true
         /\ converter_call env h (getvalue f) = Ok text.
Proof.
  induction envs as [|env rest IH]; intros w text Hst; cbn [run_session] in Hst.
  - left. exact Hst.
  - destruct (IH _ _ Hst) as [Hhere|(env' & h & f & Hin & Hrest)].
    + destruct (run_script_store_cases env w)
        as [[Hr _]|(h & f & text' & Hl & Hu & Hb & Hc & Hw & He & Hss)].
      * left. rewrite <- Hr. exact Hhere.
      * right. exists env, h, f. split; [left; reflexivity|].
        split; [exact Hu|]. split; [exact Hb|].
        unfold stored in Hhere. rewrite Hss in Hhere.
        rewrite lookup_insert_ne in Hhere by done. rewrite lookup_insert_eq in Hhere.
        cbn in Hhere. congruence.
    + right. exists env', h, f. split; [right; exact Hin|exact Hrest].
Qed.

(** X9.  After any sequence of runs of a session that starts empty, a
    stored text is a text the engine returned in one of these runs for the
    bytes of the file uploaded in that run; no error text and nothing else
    gets into the store. *)
Theorem stored_text_comes_from_engine envs text :
  stored "ocr_result" (run_session envs initial_world) = PStr text ->
  exists env h f,
    In env envs /\ uploaded_file env = Some f /\ button env = true
    /\ converter_call env h (getvalue f) = Ok text.
Proof.
  intros Hst. destruct (run_session_store_source envs initial_world text Hst) as [H|H].
  - discriminate H.
  - exact H.
Qed.

Lemma stored_text_comes_from_engine_witness :
  let envs := [sample_env (Some doc_A) true; failing_engine_env (Some doc_B)] in
  exists env h f,
    In env envs /\ uploaded_file env = Some f /\ button env = true
    /\ converter_call env h (getvalue f) = Ok text_A.
Proof.
  intros envs. apply (stored_text_comes_from_engine envs text_A).
  vm_compute. reflexivity.
Defined.

(** *** What leaves [main] *)




(** *** Running again *)

Lemma initialised_idempotent ss : initialised (initialised ss) = initialised ss.
Proof.
  apply (initialised_full _ _ _ (initialised_result ss) (initialised_time ss)).
Qed.

Lemma after_load_cached h w : resource_cache w = Some h -> after_load h w = w.
Proof. unfold after_load. intros ->. reflexivity. Qed.

Lemma after_load_cache h w env :
  loaded_handle env w = Some h -> resource_cache (after_load h w) = Some h.
Proof.
  unfold loaded_handle, after_load. destruct (resource_cache w) eqn:Hc; intros H.
  - rewrite Hc. exact H.
  - reflexivity.
Qed.

(** X11.  Rendering again is idempotent: once the engine is there, a
    run without a click leaves a world on which the same run returns the
    same page and the same world, without calling the engine. *)
Theorem rerender_idempotent env w h :
  loaded_handle env w = Some h -> button env = false ->
  run_script env (snd (run_script env w)) = run_script env w.
Proof.
  intros Hl Hb.
  assert (Hc : resource_cache (after_load h w) = Some h) by apply (after_load_cache h w env Hl).
  destruct (uploaded_file env) as [f|] eqn:Hu.
  - destruct (run_script_idle_frame env w h f Hl Hu Hb) as [pg Hpg].
    remember (snd (run_script env w)) as w1 eqn:Hw1.
    assert (Hl' : loaded_handle env w1 = Some h).
    { rewrite Hpg. unfold loaded_handle, document_world. world_simpl. rewrite Hc. reflexivity. }
    rewrite (run_script_document env w1 h f Hl' Hu).
    rewrite (run_script_document env w h f Hl Hu).
    f_equal. rewrite Hpg. unfold document_world. world_simpl.
    rewrite initialised_idempotent.
    unfold after_load at 1. world_simpl. rewrite Hc. reflexivity.
  - rewrite (run_script_no_document env w h Hl Hu). cbn [snd].
    assert (Hl' : loaded_handle env
                    (set_session_state (initialised (session_state w))
                       (set_page no_document_page (after_load h w))) = Some h).
    { unfold loaded_handle. world_simpl. rewrite Hc. reflexivity. }
    rewrite (run_script_no_document env _ h Hl' Hu).
    world_simpl. rewrite initialised_idempotent.
    unfold after_load at 1. world_simpl. rewrite Hc. reflexivity.
Qed.

Lemma rerender_idempotent_witness :
  let env := sample_env (Some doc_B) false in
  let w := snd (run_script (sample_env (Some doc_A) true) initial_world) in
  run_script env (snd (run_script env w)) = run_script env w.
Proof.
  intros env w. apply (rerender_idempotent env w 0%nat); reflexivity.
Defined.

(** *** The engine across a session *)

Lemma run_script_keeps_engine env w h :
  resource_cache w = Some h ->
  resource_cache (snd (run_script env w)) = Some h
  /\ constructions (snd (run_script env w)) = constructions w.
Proof.
  intros Hc. destruct (run_script_next_world env w) as [pg ->].
  cbn [resource_cache constructions set_page]. unfold next_world.
  assert (Hl : loaded_handle env w = Some h).
  { unfold loaded_handle. rewrite Hc. reflexivity. }
  rewrite Hl. rewrite (after_load_cached h w Hc).
  destruct (uploaded_file env) as [f|]; [|split; [exact Hc|reflexivity]].
  destruct (button env); [|split; [exact Hc|reflexivity]].
  destruct (create_error env); [split; [exact Hc|reflexivity]|].
  destruct (write_error env); [split; [exact Hc|reflexivity]|].
  unfold converted_world, document_world. world_simpl.
  rewrite (after_load_cached h w Hc). split; [exact Hc|reflexivity].
Qed.

(** X12.  Once an engine is cached, no sequence of runs, whatever fails
    in them, replaces it or builds another one. *)
Theorem engine_handle_stable envs :
  forall w h,
    resource_cache w = Some h ->
    resource_cache (run_session envs w) = Some h
    /\ constructions (run_session envs w) = constructions w.
Proof.
  induction envs as [|env rest IH]; intros w h Hc; cbn [run_session].
  - split; [exact Hc|reflexivity].
  - destruct (run_script_keeps_engine env w h Hc) as [Hc1 Hn1].
    destruct (IH _ h Hc1) as [Hc2 Hn2]. split; [exact Hc2|congruence].
Qed.

Lemma engine_handle_stable_witness :
  let w := snd (run_script (sample_env None false) initial_world) in
  let envs := [failing_engine_env (Some doc_A); failing_construct_env; failing_remove_env] in
  resource_cache (run_session envs w) = Some 0%nat
  /\ constructions (run_session envs w) = constructions w.
Proof.
  intros w envs. apply (engine_handle_stable envs w 0%nat). reflexivity.
Defined.

(** X13.  A conversion in which nothing fails returns normally and
    shows its result in the same run: the page is the file's name and
    size, then the result block with the new text, and the time in the
    banner and in the metric is the stored timing; no error element is
    shown. *)
Theorem conversion_shows_result_at_once env w h f text :
  loaded_handle env w = Some h ->
  uploaded_file env = Some f -> button env = true ->
  create_error env = None -> write_error env = None -> remove_error env = None ->
  converter_call env h (getvalue f) = Ok text ->
  fst (run_script env w) = Ok tt
  /\ page (snd (run_script env w))
     = document_page f ++ shown f (getvalue f) text (d_tmp env + d_engine env)
       ++ [Static "---"; Static "footer"].
Proof.
  intros Hl Hu Hb Hc Hw Hrm He.
  rewrite (run_script_convert env w h f Hl Hu Hb Hc Hw). rewrite Hrm.
  rewrite (footer_text f (getvalue f) (converted_world env h f w) text
             (d_tmp env + d_engine env)).
  - cbn [fst snd]. split; [reflexivity|].
    unfold converted_world. world_simpl. rewrite He. reflexivity.
  - unfold converted_world. world_simpl. rewrite He.
    rewrite lookup_insert_ne by done. apply lookup_insert_eq.
  - unfold converted_world. world_simpl. rewrite He. apply lookup_insert_eq.
Qed.

Lemma conversion_shows_result_at_once_witness :
  page (snd (run_script (sample_env (Some doc_A) true) initial_world))
  = document_page doc_A ++ shown doc_A (getvalue doc_A) text_A 12
    ++ [Static "---"; Static "footer"].
Proof.
  apply (conversion_shows_result_at_once (sample_env (Some doc_A) true) initial_world
           0%nat doc_A text_A); reflexivity.
Defined.

(** ** The names of the exports *)

Lemma replace_from_skip old new k s :
  (k <= length s)%nat -> replace_from old new k s = replace_from old new O (drop k s).
Proof.
  revert k. induction s as [|c rest IH]; intros k Hk.
  - destruct k; [reflexivity|cbn in Hk; lia].
  - destruct k as [|k]; [reflexivity|]. cbn [replace_from drop]. apply IH. cbn in Hk. lia.
Qed.

(** The test for [.pdf] at a position of [a] does not see the [.pdf] that
    follows [a]: no occurrence lies across the boundary. *)
Lemma is_prefix_dot_pdf_app a b :
  a <> [] -> is_prefix dot_pdf (a ++ dot_pdf ++ b) = is_prefix dot_pdf a.
Proof.
  intros Ha. unfold dot_pdf.
  destruct a as [|c1 [|c2 [|c3 [|c4 a]]]]; [congruence| | | |]; cbn [app is_prefix].
  - destruct (46 =? c1)%N; reflexivity.
  - destruct (46 =? c1)%N; [|reflexivity]. destruct (112 =? c2)%N; reflexivity.
  - destruct (46 =? c1)%N; [|reflexivity]. destruct (112 =? c2)%N; [|reflexivity].
    destruct (100 =? c3)%N; reflexivity.
  - reflexivity.
Qed.

Lemma is_prefix_length p s : is_prefix p s = true -> (length p <= length s)%nat.
Proof.
  revert s. induction p as [|a p IH]; intros s H; [cbn; lia|].
  destruct s as [|b s]; [discriminate|]. cbn in H.
  apply andb_true_iff in H. destruct H as [_ H]. specialize (IH s H). cbn. lia.
Qed.

Lemma replace_from_dot_pdf_app new b a :
  forall k, (k <= length a)%nat ->
    replace_from dot_pdf new k (a ++ dot_pdf ++ b)
    = replace_from dot_pdf new k a ++ new ++ replace dot_pdf new b.
Proof.
  induction a as [|c a IH]; intros k Hk.
  - assert (k = O) as -> by (cbn in Hk; lia).
    unfold replace, dot_pdf. cbn. reflexivity.
  - destruct k as [|k].
    + change ((c :: a) ++ dot_pdf ++ b) with (c :: (a ++ dot_pdf ++ b)).
      cbn [replace_from]. 
      change (c :: (a ++ dot_pdf ++ b)) with ((c :: a) ++ dot_pdf ++ b).
      rewrite is_prefix_dot_pdf_app by discriminate.
      destruct (is_prefix dot_pdf (c :: a)) eqn:Hp.
      * apply is_prefix_length in Hp. cbn in Hp.
        rewrite IH by (cbn; lia). rewrite <- app_assoc. reflexivity.
      * rewrite IH by lia. reflexivity.
    + cbn [app replace_from]. apply IH. cbn in Hk. lia.
Qed.

Lemma replace_no_occurrence old new s : occurs old s = false -> replace old new s = s.
Proof.
  unfold replace. induction s as [|c rest IH]; intros H; [reflexivity|].
  cbn [occurs] in H. apply orb_false_iff in H. destruct H as [Hp Hrest].
  cbn [replace_from]. rewrite Hp. rewrite (IH Hrest). reflexivity.
Qed.

(** X16.  [name.replace('.pdf', '')] removes [.pdf] wherever it stands,
    not only at the end: around any occurrence, the parts before and
    after are treated on their own. *)
Theorem replace_dot_pdf_app a b :
  replace dot_pdf [] (a ++ dot_pdf ++ b) = replace dot_pdf [] a ++ replace dot_pdf [] b.
Proof. unfold replace at 1 2. rewrite replace_from_dot_pdf_app by lia. reflexivity. Qed.

Lemma replace_stem stem :
  occurs dot_pdf stem = false -> replace dot_pdf [] (stem ++ dot_pdf) = stem.
Proof.
  intros H. rewrite <- (app_nil_r dot_pdf). unfold replace at 1.
  rewrite replace_from_dot_pdf_app by lia.
  fold (replace dot_pdf [] stem). rewrite (replace_no_occurrence _ _ _ H).
  cbn. rewrite app_nil_r. reflexivity.
Qed.

(** X17.  For a file named [stem.pdf] whose stem holds no [.pdf], the
    exports of a rendered result are named [stem_ocr.md] and
    [stem_ocr.txt]. *)
Theorem export_names_of_pdf_file env w w' f text stem :
  run_script env w = (Ok tt, w') ->
  uploaded_file env = Some f ->
  session_state w' !! "ocr_result" = Some (PStr text) ->
  name f = stem ++ dot_pdf -> occurs dot_pdf stem = false ->
  In (DownloadButton (PStr text) (stem ++ ocr_md) "text/markdown") (page w')
  /\ In (DownloadButton (PStr text) (stem ++ ocr_txt) "text/plain") (page w').
Proof.
  intros Hrun Hu Hr Hname Hstem.
  destruct (run_script_ok env w w' f text Hrun Hu Hr) as (errs & t & Hpg & _).
  rewrite Hpg. unfold shown. rewrite Hname, (replace_stem stem Hstem).
  split; apply in_or_app; right; apply in_or_app; right; apply in_or_app; left;
    cbn; tauto.
Qed.

Lemma export_names_of_pdf_file_witness :
  let w' := snd (run_script (sample_env (Some doc_A) true) initial_world) in
  In (DownloadButton (PStr text_A) ([97]%N ++ ocr_md) "text/markdown") (page w')
  /\ In (DownloadButton (PStr text_A) ([97]%N ++ ocr_txt) "text/plain") (page w').
Proof.
  intros w'.
  assert (Hrun : run_script (sample_env (Some doc_A) true) initial_world = (Ok tt, w'))
    by (vm_compute; reflexivity).
  assert (Hr : session_state w' !! "ocr_result" = Some (PStr text_A))
    by (vm_compute; reflexivity).
  apply (export_names_of_pdf_file (sample_env (Some doc_A) true) initial_world w' doc_A
           text_A [97]%N Hrun eq_refl Hr eq_refl eq_refl).
Defined.

(** X18.  For a file whose name holds no [.pdf] (an upper-case
    extension, say), the exports of a rendered result keep the whole name:
    [name_ocr.md] and [name_ocr.txt]. *)
Theorem export_names_without_dot_pdf env w w' f text :
  run_script env w = (Ok tt, w') ->
  uploaded_file env = Some f ->
  session_state w' !! "ocr_result" = Some (PStr text) ->
  occurs dot_pdf (name f) = false ->
  In (DownloadButton (PStr text) (name f ++ ocr_md) "text/markdown") (page w')
  /\ In (DownloadButton (PStr text) (name f ++ ocr_txt) "text/plain") (page w').
Proof.
  intros Hrun Hu Hr Hname.
  destruct (run_script_ok env w w' f text Hrun Hu Hr) as (errs & t & Hpg & _).
  rewrite Hpg. unfold shown. rewrite (replace_no_occurrence _ _ _ Hname).
  split; apply in_or_app; right; apply in_or_app; right; apply in_or_app; left;
    cbn; tauto.
Qed.

Lemma export_names_without_dot_pdf_witness :
  let env := sample_env (Some doc_upper) true in
  let w' := snd (run_script env initial_world) in
  In (DownloadButton (PStr text_A) (name doc_upper ++ ocr_md) "text/markdown") (page w').
Proof.
  intros env w'.
  assert (Hrun : run_script env initial_world = (Ok tt, w')) by (vm_compute; reflexivity).
  assert (Hr : session_state w' !! "ocr_result" = Some (PStr text_A))
    by (vm_compute; reflexivity).
  destruct (export_names_without_dot_pdf env initial_world w' doc_upper text_A
              Hrun eq_refl Hr eq_refl) as [Hmd _].
  exact Hmd.
Defined.

(** ** More on the word count *)

Lemma split_from_separator a c b :
  isspace c = true ->
  forall word, split_from word (a ++ c :: b) = split_from word a ++ split b.
Proof.
  intros Hc. induction a as [|x a IH]; intros word; cbn [app split_from].
  - rewrite Hc. destruct word; reflexivity.
  - destruct (isspace x); destruct word; rewrite ?IH; reflexivity.
Qed.

(** X19.  [text.split()] of two texts joined by a white-space character
    is the tokens of the first followed by the tokens of the second: the
    word count of the whole is the sum of the two. *)
Theorem split_separator a c b :
  isspace c = true -> split (a ++ c :: b) = split a ++ split b.
Proof. intros Hc. apply (split_from_separator a c b Hc None). Qed.

Lemma token_starts_zero s :
  token_starts true s = O <-> forallb isspace s = true.
Proof.
  induction s as [|c rest IH]; cbn [token_starts forallb]; [tauto|].
  destruct (isspace c); cbn [andb]; [exact IH|]. split; discriminate.
Qed.

Lemma split_separator_witness :
  split (text_A ++ 10%N :: text_B) = split text_A ++ split text_B.
Proof. apply (split_separator text_A 10%N text_B). reflexivity. Defined.

(** X20.  The word count is zero exactly for a text that is empty or
    all white space. *)
Theorem no_words_iff_blank text :
  length (split text) = O <-> forallb isspace text = true.
Proof. rewrite split_length. apply token_starts_zero. Qed.

(** ** Before a result, and what the engine reads *)

(** X14.  While nothing is stored, a run with an uploaded file and no
    click shows the file's name and size and the footer, and no result
    block. *)
Theorem upload_without_result_shows_file_only env w h f :
  loaded_handle env w = Some h -> uploaded_file env = Some f -> button env = false ->
  stored "ocr_result" w = PNone ->
  fst (run_script env w) = Ok tt
  /\ page (snd (run_script env w)) = document_page f ++ [Static "---"; Static "footer"].
Proof.
  intros Hl Hu Hb Hn.
  assert (Hrun : run_script env w
                 = (Ok tt, set_page (document_page f ++ [Static "---"; Static "footer"])
                             (document_world h f w))).
  { rewrite (run_script_document env w h f Hl Hu). rewrite Hb.
    unfold bind at 1. unfold bind at 1. unfold ret at 1. cbv beta iota.
    pose proof (footer_none f (getvalue f) (document_world h f w)) as Hf.
    unfold bind at 1 in Hf. apply Hf.
    unfold document_world. world_simpl. rewrite initialised_result.
    unfold stored in Hn. rewrite Hn. reflexivity. }
  rewrite Hrun. split; reflexivity.
Qed.

Lemma upload_without_result_shows_file_only_witness :
  page (snd (run_script (sample_env (Some doc_A) false) initial_world))
  = document_page doc_A ++ [Static "---"; Static "footer"].
Proof.
  apply (upload_without_result_shows_file_only (sample_env (Some doc_A) false)
           initial_world 0%nat doc_A); reflexivity.
Defined.

(** X15.  Writing the temporary file and then calling [process_pdf] on
    its path gives the engine exactly the uploaded bytes, whatever the
    path held before: the outcome is the engine's outcome on those bytes. *)
Theorem engine_reads_uploaded_bytes env h b w :
  create_error env = None -> write_error env = None ->
  fst ((path <- NamedTemporaryFile_write env b ;; process_pdf env h path) w)
  = converter_call env h b.
Proof.
  intros Hc Hw. unfold bind.
  rewrite (NamedTemporaryFile_write_ok env b w Hc Hw).
  erewrite process_pdf_run; [reflexivity|]. cbn [fs set_fs]. apply lookup_insert_eq.
Qed.

Lemma engine_reads_uploaded_bytes_witness :
  fst ((path <- NamedTemporaryFile_write (sample_env (Some doc_B) true) (getvalue doc_B) ;;
        process_pdf (sample_env (Some doc_B) true) 0%nat path) initial_world)
  = Ok text_B.
Proof.
  apply (engine_reads_uploaded_bytes (sample_env (Some doc_B) true) 0%nat
           (getvalue doc_B) initial_world); reflexivity.
Defined.
